(** * AnaFis: symbolic derivatives and uncertainty propagation

    A shallow embedding of [AnaFis/src-tauri/python/sympy_calls.py].

    The program is a thin layer over SymPy.  The embedding keeps the two
    apart:

    - [py] holds what the program uses of Python itself: exception
      classes with their subclass order, the [try]/[except] discipline as
      an error monad, list indexing, [enumerate];
    - [SymPy] is the interface of the SymPy operations the program calls
      ([parse_expr], [diff], [subs], [evalf], ...), each one a function
      that returns or raises;
    - the four functions of the file ([_get_math_functions],
      [_preprocess_formula], [calculate_symbolic_data],
      [generate_latex_data]) are written over that interface, statement
      by statement;
    - [Reference] is an executable model of the fragment of SymPy that the
      examples exercise (tokenizer, implicit multiplication, automatic
      simplification, differentiation, exact complex rational
      evaluation, printing).

    Statements about control flow are proved for every implementation of
    the interface; statements about concrete formulas are evaluated on the
    reference model. *)

From Stdlib Require Import ZArith QArith Ascii String.
From stdpp Require Import base option list strings pretty gmap fin_maps.

Set Warnings "-register-all,-clear-no-such-hyp".

Local Open Scope string_scope.
Local Open Scope list_scope.

(** ** Python: exceptions, [try]/[except], sequences *)

Module py.

(** The exception classes that the program or the modelled SymPy calls
    can raise.  [NotModelled] marks an input that lies outside the
    fragment of SymPy covered by the reference model; like every other
    class here it derives from [Exception]. *)
Inductive exception_class : Set :=
| Exception
| ValueError
| SympifyError
| TypeError
| IndexError
| KeyError
| SyntaxError
| TokenError
| RecursionError
| NotModelled.

Definition class_eqb (c d : exception_class) : bool :=
  match c, d with
  | Exception, Exception | ValueError, ValueError
  | SympifyError, SympifyError | TypeError, TypeError
  | IndexError, IndexError | KeyError, KeyError
  | SyntaxError, SyntaxError | TokenError, TokenError
  | RecursionError, RecursionError | NotModelled, NotModelled => true
  | _, _ => false
  end.

(** [issubclass c d]: every class derives from [Exception], and SymPy
    declares [class SympifyError(ValueError)]. *)
Definition issubclass (c d : exception_class) : bool :=
  match d with
  | Exception => true
  | ValueError => match c with ValueError | SympifyError => true | _ => false end
  | _ => class_eqb c d
  end.

(** A raised exception: its class and [str(e)]. *)
Record exception : Set := Exn { class_of : exception_class; str_of : string }.

Definition isinstance (e : exception) (c : exception_class) : bool :=
  issubclass (class_of e) c.

(** A computation that returns a value or raises. *)
Inductive exc (A : Type) : Type :=
| Return (a : A)
| Raise (e : exception).
Arguments Return {A} a.
Arguments Raise {A} e.

Definition bind {A B : Type} (m : exc A) (k : A -> exc B) : exc B :=
  match m with
  | Return a => k a
  | Raise e => Raise e
  end.

Definition raise {A : Type} (c : exception_class) (msg : string) : exc A :=
  Raise (Exn c msg).

(** A [for] loop whose body may raise, threading the loop's state. *)
Fixpoint for_in {A S : Type} (xs : list A) (body : S -> A -> exc S) (s : S)
  : exc S :=
  match xs with
  | [] => Return s
  | x :: xs' => bind (body s x) (for_in xs' body)
  end.

(** [enumerate(xs)], counting from [start]. *)
Fixpoint enumerate_from {A : Type} (start : nat) (xs : list A)
  : list (nat * A) :=
  match xs with
  | [] => []
  | x :: xs' => (start, x) :: enumerate_from (S start) xs'
  end.

Definition enumerate {A : Type} (xs : list A) : list (nat * A) :=
  enumerate_from 0 xs.

(** [xs[i]] on a list, for [i >= 0]. *)
Definition getitem {A : Type} (xs : list A) (i : nat) : exc A :=
  match xs !! i with
  | Some x => Return x
  | None => raise IndexError "list index out of range"
  end.

(** [d[k]] on a dict. *)
Definition dict_getitem {A : Type} (d : gmap string A) (k : string) : exc A :=
  match d !! k with
  | Some x => Return x
  | None => raise KeyError k
  end.

(** [{**a, **b}]: the entries of [b] override those of [a]. *)
Definition dict_merge {A : Type} (a b : gmap string A) : gmap string A :=
  b ∪ a.

End py.

Export py(exc, Return, Raise).

Declare Scope exc_scope.
Delimit Scope exc_scope with exc.
Notation "x <- m ;; k" := (py.bind m (fun x => k))
  (at level 100, m at next level, right associativity) : exc_scope.
Local Open Scope exc_scope.

(** ** The SymPy names the program refers to *)

Module sp.

(** The callables [sp.<name>] that [_get_math_functions] puts in its
    table.  [sp.ln] is SymPy's own alias of [sp.log]. *)
Inductive function : Set :=
| sin | cos | tan | cot | sec | csc
| asin | acos | atan | acot | asec | acsc
| sinh | cosh | tanh | coth | sech | csch
| asinh | acosh | atanh | acoth | asech | acsch
| log | exp | exp_polar | sqrt
| erf | erfc | gamma | beta | zeta
| besselj | bessely | besseli | besselk
| sinc | digamma | LambertW
| Ynm | assoc_legendre | hermite | elliptic_e | elliptic_k.

Definition ln : function := log.

(** The name under which SymPy exports each of them. *)
Definition name (f : function) : string :=
  match f with
  | sin => "sin" | cos => "cos" | tan => "tan" | cot => "cot"
  | sec => "sec" | csc => "csc"
  | asin => "asin" | acos => "acos" | atan => "atan" | acot => "acot"
  | asec => "asec" | acsc => "acsc"
  | sinh => "sinh" | cosh => "cosh" | tanh => "tanh" | coth => "coth"
  | sech => "sech" | csch => "csch"
  | asinh => "asinh" | acosh => "acosh" | atanh => "atanh"
  | acoth => "acoth" | asech => "asech" | acsch => "acsch"
  | log => "log" | exp => "exp" | exp_polar => "exp_polar"
  | sqrt => "sqrt"
  | erf => "erf" | erfc => "erfc" | gamma => "gamma" | beta => "beta"
  | zeta => "zeta"
  | besselj => "besselj" | bessely => "bessely" | besseli => "besseli"
  | besselk => "besselk"
  | sinc => "sinc" | digamma => "digamma" | LambertW => "LambertW"
  | Ynm => "Ynm" | assoc_legendre => "assoc_legendre"
  | hermite => "hermite" | elliptic_e => "elliptic_e"
  | elliptic_k => "elliptic_k"
  end.

Definition functions : list function :=
  [ sin; cos; tan; cot; sec; csc; asin; acos; atan; acot; asec; acsc;
    sinh; cosh; tanh; coth; sech; csch; asinh; acosh; atanh; acoth;
    asech; acsch; log; exp; exp_polar; sqrt; erf; erfc; gamma; beta;
    zeta; besselj; bessely; besseli; besselk; sinc; digamma; LambertW;
    Ynm; assoc_legendre; hermite; elliptic_e; elliptic_k ].

(** The token transformations of [sympy.parsing.sympy_parser]. *)
Inductive transformation : Set :=
| lambda_notation
| auto_symbol
| repeated_decimals
| auto_number
| factorial_notation
| convert_xor
| implicit_multiplication_application.

Definition standard_transformations : list transformation :=
  [ lambda_notation; auto_symbol; repeated_decimals; auto_number;
    factorial_notation ].

End sp.

(** ** The interface of SymPy *)

(** The objects and operators: what Python's [eval] meets when it runs the
    code that [parse_expr] generates, and what the lambdas of the function
    table use. *)
Record Algebra : Type := {
  Expr : Type;
  Symbol : string -> Expr;             (* sp.Symbol(name) *)
  Integer : Z -> Expr;                 (* sp.Integer(n); also sympify of a Python int *)
  Rational : Expr -> Expr -> exc Expr; (* sp.Rational(p, q) *)
  pi : Expr;                           (* sp.pi *)
  E : Expr;                            (* sp.E *)
  I : Expr;                            (* sp.I *)
  call : sp.function -> list Expr -> exc Expr;  (* sp.f(args...) *)
  add : Expr -> Expr -> exc Expr;      (* a + b *)
  sub : Expr -> Expr -> exc Expr;      (* a - b *)
  mul : Expr -> Expr -> exc Expr;      (* a * b *)
  truediv : Expr -> Expr -> exc Expr;  (* a / b *)
  pow : Expr -> Expr -> exc Expr;      (* a ** b *)
  neg : Expr -> exc Expr;              (* -a *)
  pos : Expr -> exc Expr;              (* +a *)
}.

(** A value bound to a name in a namespace: an expression or a callable. *)
Inductive pyobj (A : Algebra) : Type :=
| Obj (e : Expr A)
| Callable (f : list (Expr A) -> exc (Expr A)).
Arguments Obj {A} e.
Arguments Callable {A} f.

Record SymPy : Type := {
  algebra :> Algebra;
  (** Python floats: the literal [m * 10^e], as in [0.0] and [1e-10]. *)
  pyfloat : Type;
  float_literal : Z -> Z -> pyfloat;
  (** parse_expr(s, local_dict=..., transformations=...) *)
  parse_expr :
    string -> gmap string (pyobj algebra) -> list sp.transformation ->
    exc (Expr algebra);
  (** sp.sympify(s) on a string *)
  sympify : string -> exc (Expr algebra);
  (** sp.diff(expr, symbol) *)
  diff : Expr algebra -> Expr algebra -> exc (Expr algebra);
  (** str(expr) *)
  str : Expr algebra -> string;
  (** latex(expr, mul_symbol=...) *)
  latex : Expr algebra -> string -> exc string;
  (** expr.subs(d), [d] a dict from names to Python floats *)
  subs : Expr algebra -> gmap string pyfloat -> exc (Expr algebra);
  (** expr.free_symbols, as the set of the symbols' names *)
  free_symbols : Expr algebra -> gset string;
  (** expr.evalf() *)
  evalf : Expr algebra -> exc (Expr algebra);
  (** float(expr) *)
  float : Expr algebra -> exc pyfloat;
  (** sp.im(expr), sp.re(expr), abs(expr) *)
  im : Expr algebra -> exc (Expr algebra);
  re : Expr algebra -> exc (Expr algebra);
  abs : Expr algebra -> exc (Expr algebra);
  (** the truth value of [expr > x], [x] a Python float *)
  gt : Expr algebra -> pyfloat -> exc bool;
}.

(** ** sympy_calls.py *)

Section Program.

Context (sympy : SymPy).

Abbreviation Expr := (Expr sympy).
Abbreviation pyfloat := (pyfloat sympy).
Abbreviation dict := (gmap string).

(** The lambdas of the table. *)
Definition lambda_log10 : list Expr -> exc Expr := fun args =>
  match args with
  | [x] => call sympy sp.log [x; Integer sympy 10]
  | _ => py.raise py.TypeError "<lambda>() takes 1 positional argument"
  end.

Definition lambda_log2 : list Expr -> exc Expr := fun args =>
  match args with
  | [x] => call sympy sp.log [x; Integer sympy 2]
  | _ => py.raise py.TypeError "<lambda>() takes 1 positional argument"
  end.

Definition lambda_cbrt : list Expr -> exc Expr := fun args =>
  match args with
  | [x] =>
      r <- Rational sympy (Integer sympy 1) (Integer sympy 3) ;;
      pow sympy x r
  | _ => py.raise py.TypeError "<lambda>() takes 1 positional argument"
  end.

Definition lambda_root : list Expr -> exc Expr := fun args =>
  match args with
  | [x; n] =>
      r <- Rational sympy (Integer sympy 1) n ;;
      pow sympy x r
  | _ => py.raise py.TypeError "<lambda>() takes 2 positional arguments"
  end.

Definition fn (f : sp.function) : pyobj sympy := Callable (call sympy f).

(** The dict literal of [_get_math_functions], entry by entry. *)
Definition math_function_items : list (string * pyobj sympy) :=
  [ ("sin", fn sp.sin);
    ("sen", fn sp.sin);
    ("cos", fn sp.cos);
    ("tan", fn sp.tan);
    ("cot", fn sp.cot);
    ("sec", fn sp.sec);
    ("csc", fn sp.csc);
    ("asin", fn sp.asin);
    ("acos", fn sp.acos);
    ("atan", fn sp.atan);
    ("acot", fn sp.acot);
    ("asec", fn sp.asec);
    ("acsc", fn sp.acsc);
    ("sinh", fn sp.sinh);
    ("cosh", fn sp.cosh);
    ("tanh", fn sp.tanh);
    ("coth", fn sp.coth);
    ("sech", fn sp.sech);
    ("csch", fn sp.csch);
    ("asinh", fn sp.asinh);
    ("acosh", fn sp.acosh);
    ("atanh", fn sp.atanh);
    ("acoth", fn sp.acoth);
    ("asech", fn sp.asech);
    ("acsch", fn sp.acsch);
    ("log", fn sp.log);
    ("log10", Callable lambda_log10);
    ("log2", Callable lambda_log2);
    ("ln", fn sp.ln);
    ("exp", fn sp.exp);
    ("exp_polar", fn sp.exp_polar);
    ("sqrt", fn sp.sqrt);
    ("cbrt", Callable lambda_cbrt);
    ("root", Callable lambda_root);
    ("erf", fn sp.erf);
    ("erfc", fn sp.erfc);
    ("gamma", fn sp.gamma);
    ("beta", fn sp.beta);
    ("zeta", fn sp.zeta);
    ("besselj", fn sp.besselj);
    ("bessely", fn sp.bessely);
    ("besseli", fn sp.besseli);
    ("besselk", fn sp.besselk);
    ("sinc", fn sp.sinc);
    ("digamma", fn sp.digamma);
    ("LambertW", fn sp.LambertW);
    ("Ynm", fn sp.Ynm);
    ("assoc_legendre", fn sp.assoc_legendre);
    ("hermite", fn sp.hermite);
    ("elliptic_e", fn sp.elliptic_e);
    ("elliptic_k", fn sp.elliptic_k);
    ("pi", Obj (pi sympy));
    ("e", Obj (E sympy));
    ("E", Obj (E sympy));
    ("I", Obj (I sympy));
    ("j", Obj (I sympy)) ].

Definition _get_math_functions : dict (pyobj sympy) :=
  list_to_map math_function_items.

(** [symbols = {var: sp.Symbol(var) for var in variables}] *)
Definition symbols_of (variables : list string) : dict (pyobj sympy) :=
  list_to_map ((fun var => (var, Obj (Symbol sympy var))) <$> variables).

(** [combined_locals = {**symbols, **math_functions}] *)
Definition combined_locals (variables : list string)
    (math_functions : dict (pyobj sympy)) : dict (pyobj sympy) :=
  py.dict_merge (symbols_of variables) math_functions.

Definition _preprocess_formula (formula : string) (variables : list string)
    (math_functions : dict (pyobj sympy)) : exc Expr :=
  let transformations :=
    (sp.standard_transformations
     ++ [sp.implicit_multiplication_application])%list in
  parse_expr sympy formula (combined_locals variables math_functions)
    transformations.

(** The dict that [calculate_symbolic_data] returns; [error] is [None]
    when the key is absent. *)
Record SymbolicData : Type := {
  expression : string;
  derivatives : dict string;
  numerical_value : pyfloat;
  numerical_derivatives : dict pyfloat;
  success : bool;
  error : option string;
}.

(** Lines 106-109: the loop that fills [derivatives]. *)
Definition derivatives_loop (expr : Expr) (variables : list string)
  : exc (dict string) :=
  py.for_in variables
    (fun derivatives var =>
       deriv <- diff sympy expr (Symbol sympy var) ;;
       Return (<[var := str sympy deriv]> derivatives))
    ∅.

(** Line 112: [{var: values[i] for i, var in enumerate(variables)}]. *)
Definition value_subs_of (variables : list string) (values : list pyfloat)
  : exc (dict pyfloat) :=
  py.for_in (py.enumerate variables)
    (fun d item =>
       let '(i, var) := item in
       v <- py.getitem values i ;;
       Return (<[var := v]> d))
    ∅.

Definition missing_variables_message : string :=
  "Expression could not be fully evaluated: missing variables?".

Definition imaginary_message (var : string) : string :=
  "Derivative with respect to " +:+ var +:+
  " has a significant imaginary part.".

(** Lines 124-125: the derivative is read back from its string and
    evaluated at the supplied values. *)
Definition derivative_value (derivatives : dict string)
    (value_subs : dict pyfloat) (var : string) : exc Expr :=
  d <- py.dict_getitem derivatives var ;;
  deriv_expr <- sympify sympy d ;;
  substituted <- subs sympy deriv_expr value_subs ;;
  evalf sympy substituted.

(** Line 126: [abs(sp.im(deriv_value)) > 1e-10]. *)
Definition significant_imaginary (deriv_value : Expr) : exc bool :=
  imaginary <- im sympy deriv_value ;;
  magnitude <- abs sympy imaginary ;;
  gt sympy magnitude (float_literal sympy 1 (-10)).

(** Lines 123-132: one turn of the loop that fills
    [numerical_derivatives]. *)
Definition numerical_derivative_step (derivatives : dict string)
    (value_subs : dict pyfloat)
    (numerical_derivatives : dict pyfloat) (var : string)
  : exc (dict pyfloat) :=
  deriv_value <- derivative_value derivatives value_subs var ;;
  significant <- significant_imaginary deriv_value ;;
  if significant : bool then
    py.raise py.ValueError (imaginary_message var)
  else
    deriv_value <- re sympy deriv_value ;;
    x <- float sympy deriv_value ;;
    Return (<[var := x]> numerical_derivatives).

(** Lines 103-120: everything before the second loop.  Returns
    [(expr, derivatives, value_subs, numerical_value)]. *)
Definition evaluate_expression (formula : string)
    (variables : list string) (values : list pyfloat)
  : exc (Expr * dict string * dict pyfloat * pyfloat) :=
  let math_functions := _get_math_functions in
  expr <- _preprocess_formula formula variables math_functions ;;
  derivatives <- derivatives_loop expr variables ;;
  value_subs <- value_subs_of variables values ;;
  expr_value <- subs sympy expr value_subs ;;
  if decide (free_symbols sympy expr_value = ∅) then
    expr_value <- evalf sympy expr_value ;;
    numerical_value <- float sympy expr_value ;;
    Return (expr, derivatives, value_subs, numerical_value)
  else
    py.raise py.ValueError missing_variables_message.

(** The body of the [try] block of [calculate_symbolic_data]. *)
Definition calculate_symbolic_data_try (formula : string)
    (variables : list string) (values : list pyfloat) : exc SymbolicData :=
  state <- evaluate_expression formula variables values ;;
  let '(expr, derivatives, value_subs, numerical_value) := state in
  numerical_derivatives <-
    py.for_in variables
      (numerical_derivative_step derivatives value_subs) ∅ ;;
  Return {| expression := str sympy expr;
            derivatives := derivatives;
            numerical_value := numerical_value;
            numerical_derivatives := numerical_derivatives;
            success := true;
            error := None |}.

(** The dict built by each of the three handlers. *)
Definition failure (formula : string) (message : string) : SymbolicData :=
  {| expression := formula;
     derivatives := ∅;
     numerical_value := float_literal sympy 0 0;
     numerical_derivatives := ∅;
     success := false;
     error := Some message |}.

(** The [except] clauses, tried in the order of the source. *)
Definition calculate_symbolic_data_except (formula : string)
    (e : py.exception) : SymbolicData :=
  if py.isinstance e py.SympifyError then
    failure formula ("Invalid formula syntax: " +:+ py.str_of e)
  else if py.isinstance e py.ValueError then
    failure formula ("Evaluation error: " +:+ py.str_of e)
  else
    failure formula ("Unexpected error: " +:+ py.str_of e).

Definition calculate_symbolic_data (formula : string)
    (variables : list string) (values : list pyfloat) : SymbolicData :=
  match calculate_symbolic_data_try formula variables values with
  | Return result => result
  | Raise e => calculate_symbolic_data_except formula e
  end.

(** The dict that [generate_latex_data] returns. *)
Record LatexData : Type := {
  latex_string : string;     (* key "string" *)
  latex_latex : string;      (* key "latex" *)
  latex_success : bool;      (* key "success" *)
  latex_error : option string;
}.

(** Lines 182-189: one turn of the loop; the state is
    [(derivatives, uncertainty_terms)]. *)
Definition uncertainty_step (expr : Expr)
    (state : dict Expr * list Expr) (var : string)
  : exc (dict Expr * list Expr) :=
  let '(derivatives, uncertainty_terms) := state in
  deriv <- diff sympy expr (Symbol sympy var) ;;
  let derivatives := <[var := deriv]> derivatives in
  let sigma_var := Symbol sympy ("σ_" +:+ var) in
  product <- mul sympy deriv sigma_var ;;
  term <- pow sympy product (Integer sympy 2) ;;
  Return (derivatives, (uncertainty_terms ++ [term])%list).

(** [sum(terms)]: Python starts from the int [0]. *)
Definition py_sum (terms : list Expr) : exc Expr :=
  py.for_in terms (fun acc term => add sympy acc term) (Integer sympy 0).

Definition generate_latex_data_try (formula : string)
    (variables : list string) : exc LatexData :=
  let math_functions := _get_math_functions in
  expr <- _preprocess_formula formula variables math_functions ;;
  state <- py.for_in variables (uncertainty_step expr) (∅, []) ;;
  let '(derivatives, uncertainty_terms) := state in
  uncertainty_sum <- py_sum uncertainty_terms ;;
  uncertainty_expr <- call sympy sp.sqrt [uncertainty_sum] ;;
  latex_formula <- latex sympy uncertainty_expr "dot" ;;
  let string_formula := str sympy uncertainty_expr in
  Return {| latex_string := string_formula;
            latex_latex := latex_formula;
            latex_success := true;
            latex_error := None |}.

Definition generate_latex_data (formula : string)
    (variables : list string) : LatexData :=
  match generate_latex_data_try formula variables with
  | Return result => result
  | Raise e =>
      {| latex_string := "";
         latex_latex := "";
         latex_success := false;
         latex_error := Some (py.str_of e) |}
  end.

End Program.

Arguments expression {sympy}.
Arguments derivatives {sympy}.
Arguments numerical_value {sympy}.
Arguments numerical_derivatives {sympy}.
Arguments success {sympy}.
Arguments error {sympy}.

(** ** A model of [sympy.parsing]

    [parse_expr] tokenizes the formula with Python's tokenizer, rewrites
    the tokens with the transformations it is given, and hands the result
    to Python's [eval], whose operators dispatch to SymPy.  The model
    follows the same three stages over any [Algebra], for formulas made of
    integer numerals, names, [+ - * / **], parentheses, calls and commas.

    What the fragment leaves out raises [py.NotModelled]: decimal and
    exponent literals, other characters, bare function names (implicit
    application), undeclared names that [split_symbols] would cut into
    letters, tuples, and the names of SymPy's namespace that the model
    does not define. *)

Module Parser.

Inductive op : Set :=
| PLUS | MINUS | STAR | SLASH | DOUBLESTAR | LPAR | RPAR | COMMA.

Inductive token : Set :=
| NUMBER (digits : string)
| NAME (id : string)
| OP (o : op)
| OTHER (c : ascii).

(** *** Tokenizer *)

Definition code (c : ascii) : N := N_of_ascii c.

Definition is_digit (c : ascii) : bool :=
  ((48 <=? code c) && (code c <=? 57))%N.

(** Letters, the underscore, and the bytes of non-ASCII characters. *)
Definition is_name_char (c : ascii) : bool :=
  (((65 <=? code c) && (code c <=? 90))
   || ((97 <=? code c) && (code c <=? 122))
   || (code c =? 95) || (128 <=? code c))%N.

Definition is_blank (c : ascii) : bool :=
  ((code c =? 32) || (code c =? 9))%N.

Definition op_of_char (c : ascii) : option op :=
  match c with
  | "+"%char => Some PLUS
  | "-"%char => Some MINUS
  | "*"%char => Some STAR
  | "/"%char => Some SLASH
  | "("%char => Some LPAR
  | ")"%char => Some RPAR
  | ","%char => Some COMMA
  | _ => None
  end.

(** Letters that may continue a numeric literal in Python ([2e5], [2j],
    [1_000], and [0x1f], [0b1], [0o7] after a lone zero); the literal
    would not be a plain integer. *)
Definition continues_number (rev_digits : string) (c : ascii) : bool :=
  match c with
  | "e" | "E" | "j" | "J" | "_" => true
  | "x" | "X" | "b" | "B" | "o" | "O" =>
      match rev_digits with
      | String "0" EmptyString => true
      | _ => false
      end
  | _ => false
  end%char.

Fixpoint rev_append (s acc : string) : string :=
  match s with
  | EmptyString => acc
  | String c s' => rev_append s' (String c acc)
  end.

Definition rev (s : string) : string := rev_append s EmptyString.

Inductive lex_state : Set :=
| Start
| InNumber (rev_digits : string)
| InName (rev_id : string)
| AfterStar.

Definition flush (st : lex_state) : list token :=
  match st with
  | Start => []
  | InNumber r => [NUMBER (rev r)]
  | InName r => [NAME (rev r)]
  | AfterStar => [OP STAR]
  end.

Definition step (st : lex_state) (c : ascii) : list token * lex_state :=
  if is_digit c then
    match st with
    | InNumber r => ([], InNumber (String c r))
    | InName r => ([], InName (String c r))
    | _ => (flush st, InNumber (String c EmptyString))
    end
  else if is_name_char c then
    match st with
    | InName r => ([], InName (String c r))
    | InNumber r =>
        if continues_number r c then (flush st ++ [OTHER c], Start)
        else (flush st, InName (String c EmptyString))
    | _ => (flush st, InName (String c EmptyString))
    end
  else if is_blank c then (flush st, Start)
  else
    match op_of_char c with
    | Some STAR =>
        match st with
        | AfterStar => ([OP DOUBLESTAR], Start)
        | _ => (flush st, AfterStar)
        end
    | Some o => (flush st ++ [OP o], Start)
    | None => (flush st ++ [OTHER c], Start)
    end.

Fixpoint tokenize_from (s : string) (st : lex_state) : list token :=
  match s with
  | EmptyString => flush st
  | String c s' =>
      let '(ts, st') := step st c in
      ts ++ tokenize_from s' st'
  end.

Definition tokenize (s : string) : list token := tokenize_from s Start.

Definition is_other (t : token) : bool :=
  match t with OTHER _ => true | _ => false end.

(** The value of a decimal numeral. *)
Definition digit_value (c : ascii) : Z := Z.of_N (code c) - 48.

Fixpoint value_of_digits (s : string) (acc : Z) : Z :=
  match s with
  | EmptyString => acc
  | String c s' => value_of_digits s' (10 * acc + digit_value c)
  end.

(** Python rejects [007]; [0] alone is fine. *)
Definition has_leading_zero (digits : string) : bool :=
  match digits with
  | String "0"%char (String _ _) => true
  | _ => false
  end.

(** The nesting depth as Python's tokenizer counts it, and whether a
    closing parenthesis came with none open. *)
Fixpoint paren_scan (ts : list token) (depth : Z) (unmatched : bool)
  : Z * bool :=
  match ts with
  | [] => (depth, unmatched)
  | OP LPAR :: ts' => paren_scan ts' (depth + 1) unmatched
  | OP RPAR :: ts' =>
      paren_scan ts' (depth - 1) (unmatched || (depth <=? 0)%Z)
  | _ :: ts' => paren_scan ts' depth unmatched
  end.

(** *** Grammar *)

Inductive binop : Set := BAdd | BSub | BMul | BDiv | BPow.

Inductive ast : Set :=
| ANum (digits : string)
| AName (id : string)
| ANeg (a : ast)
| APos (a : ast)
| ABin (o : binop) (a b : ast)
| ACall (f : string) (args : list ast).

Inductive nonterminal : Set :=
| NSum
| NSumRest (acc : ast)
| NTerm
| NTermRest (acc : ast)
| NFactor
| NPower
| NAtom
| NArgs (f : string) (acc : list ast).

Definition syntax_error {A : Type} : exc A :=
  py.raise py.SyntaxError "invalid syntax (<string>, line 1)".

Definition not_modelled {A : Type} (what : string) : exc A :=
  py.raise py.NotModelled ("outside the modelled fragment: " +:+ what).

Section Grammar.

(** [implicit]: [implicit_multiplication_application] is among the
    transformations.  [callable]: the name is bound to a callable. *)
Variable implicit : bool.
Variable callable : string -> bool.

(** Python's expression grammar, restricted to the fragment:
    sum > term > factor (unary sign) > power > atom.  Under
    [implicit], a term goes on when an atom follows without an
    operator, and a name that is not callable does not start a
    call. *)
Definition production
    (parse : nonterminal -> list token -> exc (ast * list token))
    (nt : nonterminal) (ts : list token) : exc (ast * list token) :=
  match nt with
  | NSum =>
      r <- parse NTerm ts ;;
      parse (NSumRest r.1) r.2
  | NSumRest acc =>
      match ts with
      | OP PLUS :: ts' =>
          r <- parse NTerm ts' ;;
          parse (NSumRest (ABin BAdd acc r.1)) r.2
      | OP MINUS :: ts' =>
          r <- parse NTerm ts' ;;
          parse (NSumRest (ABin BSub acc r.1)) r.2
      | _ => Return (acc, ts)
      end
  | NTerm =>
      r <- parse NFactor ts ;;
      parse (NTermRest r.1) r.2
  | NTermRest acc =>
      match ts with
      | OP STAR :: ts' =>
          r <- parse NFactor ts' ;;
          parse (NTermRest (ABin BMul acc r.1)) r.2
      | OP SLASH :: ts' =>
          r <- parse NFactor ts' ;;
          parse (NTermRest (ABin BDiv acc r.1)) r.2
      | NUMBER _ :: _ | NAME _ :: _ =>
          if implicit then
            r <- parse NFactor ts ;;
            parse (NTermRest (ABin BMul acc r.1)) r.2
          else syntax_error
      | OP LPAR :: _ =>
          if implicit then
            r <- parse NFactor ts ;;
            parse (NTermRest (ABin BMul acc r.1)) r.2
          else not_modelled "call of a compound expression"
      | _ => Return (acc, ts)
      end
  | NFactor =>
      match ts with
      | OP MINUS :: ts' =>
          r <- parse NFactor ts' ;;
          Return (ANeg r.1, r.2)
      | OP PLUS :: ts' =>
          r <- parse NFactor ts' ;;
          Return (APos r.1, r.2)
      | _ => parse NPower ts
      end
  | NPower =>
      r <- parse NAtom ts ;;
      match r.2 with
      | OP DOUBLESTAR :: ts' =>
          e <- parse NFactor ts' ;;
          Return (ABin BPow r.1 e.1, e.2)
      | _ => Return r
      end
  | NAtom =>
      match ts with
      | NUMBER d :: ts' =>
          if has_leading_zero d then not_modelled "leading zero"
          else Return (ANum d, ts')
      | NAME s :: OP LPAR :: ts' =>
          if callable s || negb implicit
          then parse (NArgs s []) ts'
          else Return (AName s, OP LPAR :: ts')
      | NAME s :: ts' =>
          if callable s && implicit
          then not_modelled "function name without arguments"
          else Return (AName s, ts')
      | OP LPAR :: OP RPAR :: _ => not_modelled "empty tuple"
      | OP LPAR :: ts' =>
          r <- parse NSum ts' ;;
          match r.2 with
          | OP RPAR :: ts'' => Return (r.1, ts'')
          | OP COMMA :: _ => not_modelled "tuple"
          | _ => syntax_error
          end
      | _ => syntax_error
      end
  | NArgs f acc =>
      match ts with
      | OP RPAR :: ts' => Return (ACall f acc, ts')
      | _ =>
          r <- parse NSum ts ;;
          match r.2 with
          | OP COMMA :: ts' => parse (NArgs f (acc ++ [r.1])) ts'
          | OP RPAR :: ts' => Return (ACall f (acc ++ [r.1]), ts')
          | _ => syntax_error
          end
      end
  end.

(** The recursion of the grammar, bounded by [fuel]. *)
Fixpoint parse (fuel : nat) (nt : nonterminal) (ts : list token)
  : exc (ast * list token) :=
  match fuel with
  | O => py.raise py.RecursionError "maximum recursion depth exceeded"
  | S fuel => production (parse fuel) nt ts
  end.

(** Fuel for the whole token list; [parse_within_fuel] shows that it is
    never used up. *)
Definition fuel_for (ts : list token) : nat := 10 * (length ts + 1).

Definition parse_tokens (ts : list token) : exc ast :=
  r <- parse (fuel_for ts) NSum ts ;;
  match r.2 with
  | [] => Return r.1
  | OP COMMA :: _ => not_modelled "tuple"
  | _ => syntax_error
  end.

End Grammar.

(** The measure that bounds the recursion: each nonterminal calls either
    one of lower rank on the same tokens, or any one on fewer tokens. *)
Definition rank (nt : nonterminal) : nat :=
  match nt with
  | NSumRest _ => 0
  | NAtom => 1
  | NPower => 2
  | NFactor => 3
  | NTermRest _ => 4
  | NTerm => 5
  | NSum => 6
  | NArgs _ _ => 7
  end.

(** The least number of tokens a successful parse consumes. *)
Definition consumes (nt : nonterminal) : nat :=
  match nt with
  | NSumRest _ | NTermRest _ => 0
  | _ => 1
  end.

(** A result that was not cut short by the fuel, and that consumed what
    its nonterminal must consume. *)
Definition within_fuel (nt : nonterminal) (ts : list token)
    (r : exc (ast * list token)) : Prop :=
  match r with
  | Return (_, ts') => length ts' + consumes nt <= length ts
  | Raise e => py.class_of e <> py.RecursionError
  end.

(** *** Names *)

(** The part of SymPy's namespace ([from sympy import *]) that the model
    defines: the functions and constants the program's table refers
    to. *)
Definition global_items (A : Algebra) : list (string * pyobj A) :=
  ((fun f => (sp.name f, Callable (call A f))) <$> sp.functions)
  ++ [ ("ln", Callable (call A sp.ln));
       ("pi", Obj (pi A));
       ("E", Obj (E A));
       ("I", Obj (I A)) ].

Definition global_dict (A : Algebra) : gmap string (pyobj A) :=
  list_to_map (global_items A).

(** Python keywords and names of SymPy's namespace that are bound there
    but not defined by the model. *)
Definition reserved : list string :=
  [ "S"; "N"; "O"; "Q"; "oo"; "zoo"; "nan"; "Abs"; "re"; "im"; "arg";
    "sign"; "conjugate"; "Symbol"; "Function"; "Integer"; "Float";
    "Rational"; "Add"; "Mul"; "Pow"; "Mod"; "Max"; "Min"; "floor";
    "ceiling"; "factorial"; "binomial"; "diff"; "Derivative";
    "integrate"; "Integral"; "limit"; "cbrt"; "root"; "true"; "false";
    "True"; "False"; "None"; "lambda"; "and"; "or"; "not"; "in"; "is";
    "if"; "else"; "for"; "EulerGamma"; "GoldenRatio"; "Catalan" ].

Definition contains_underscore (s : string) : bool :=
  existsb (fun c => (code c =? 95)%N) (list_ascii_of_string s).

(** [_token_splittable] up to the Greek letter names: more than one
    character and no underscore. *)
Definition splittable (s : string) : bool :=
  negb (contains_underscore s) && (1 <? String.length s)%nat.

Section Eval.

Context (A : Algebra).
Variable implicit : bool.
Variable local_dict : gmap string (pyobj A).

Definition bound (s : string) : option (pyobj A) :=
  match local_dict !! s with
  | Some o => Some o
  | None => global_dict A !! s
  end.

Definition callable (s : string) : bool :=
  match bound s with
  | Some (Callable _) => true
  | _ => false
  end.

(** [auto_symbol] followed by the evaluation of the name. *)
Definition resolve (s : string) : exc (pyobj A) :=
  match bound s with
  | Some o => Return o
  | None =>
      if bool_decide (s ∈ reserved) then
        not_modelled ("the name " +:+ s)
      else if implicit && splittable s then
        not_modelled ("split_symbols on " +:+ s)
      else Return (Obj (Symbol A s))
  end.

Definition operand (o : pyobj A) : exc (Expr A) :=
  match o with
  | Obj e => Return e
  | Callable _ => py.raise py.TypeError "unsupported operand type(s)"
  end.

Definition argument (o : pyobj A) : exc (Expr A) :=
  match o with
  | Obj e => Return e
  | Callable _ => not_modelled "a function passed as an argument"
  end.

Definition binary (o : binop) (x y : Expr A) : exc (Expr A) :=
  match o with
  | BAdd => add A x y
  | BSub => sub A x y
  | BMul => mul A x y
  | BDiv => truediv A x y
  | BPow => pow A x y
  end.

(** Python's [eval] on the fragment: operands left to right, the
    callee before its arguments. *)
Fixpoint eval (a : ast) : exc (pyobj A) :=
  match a with
  | ANum d => Return (Obj (Integer A (value_of_digits d 0)))
  | AName s => resolve s
  | ANeg a =>
      v <- eval a ;; x <- operand v ;; r <- neg A x ;; Return (Obj r)
  | APos a =>
      v <- eval a ;; x <- operand v ;; r <- pos A x ;; Return (Obj r)
  | ABin o a b =>
      v <- eval a ;;
      w <- eval b ;;
      x <- operand v ;;
      y <- operand w ;;
      r <- binary o x y ;;
      Return (Obj r)
  | ACall f args =>
      match bound f with
      | None => not_modelled ("the undefined function " +:+ f)
      | Some (Obj _) => py.raise py.TypeError "object is not callable"
      | Some (Callable g) =>
          xs <- (fix eval_args (l : list ast) : exc (list (Expr A)) :=
                   match l with
                   | [] => Return []
                   | a :: l' =>
                       v <- eval a ;;
                       x <- argument v ;;
                       xs <- eval_args l' ;;
                       Return (x :: xs)
                   end) args ;;
          r <- g xs ;;
          Return (Obj r)
      end
  end.

(** Tokenize, check the parentheses as the tokenizer and
    [_group_parentheses] do, parse, evaluate. *)
Definition parse_and_eval (s : string) : exc (Expr A) :=
  let ts := tokenize s in
  if existsb is_other ts then not_modelled "a character"
  else
    let '(depth, unmatched) := paren_scan ts 0 false in
    if (0 <? depth)%Z then
      py.raise py.TokenError "('EOF in multi-line statement', (2, 0))"
    else if unmatched then
      if implicit then py.raise py.TokenError "Mismatched parentheses"
      else py.raise py.SyntaxError "unmatched ')' (<string>, line 1)"
    else
      a <- parse_tokens implicit callable ts ;;
      v <- eval a ;;
      match v with
      | Obj e => Return e
      | Callable _ => not_modelled "a formula that is a function"
      end.

End Eval.

#[global] Instance transformation_eq_dec : EqDecision sp.transformation.
Proof. solve_decision. Defined.

Definition parse_expr (A : Algebra) (s : string)
    (local_dict : gmap string (pyobj A))
    (transformations : list sp.transformation) : exc (Expr A) :=
  if decide (transformations
             = sp.standard_transformations
                 ++ [sp.implicit_multiplication_application])
  then parse_and_eval A true local_dict s
  else if decide (transformations = sp.standard_transformations)
  then parse_and_eval A false local_dict s
  else not_modelled "these transformations".

(** [sympify] of a string: [parse_expr] with the standard
    transformations and SymPy's namespace alone; a [TokenError] or
    [SyntaxError] is re-raised as a [SympifyError]. *)
Definition sympify (A : Algebra) (s : string) : exc (Expr A) :=
  match parse_expr A s ∅ sp.standard_transformations with
  | Return e => Return e
  | Raise e =>
      if py.isinstance e py.TokenError || py.isinstance e py.SyntaxError
      then py.raise py.SympifyError
             ("Sympify of expression 'could not parse '" +:+ s
              +:+ "'' failed, because of exception being raised:"
              +:+ py.str_of e)
      else Raise e
  end.

End Parser.

(** Any implementation of the interface, with its parsing replaced by the
    model above. *)
Definition with_reference_parser (sympy : SymPy) : SymPy :=
  Build_SymPy sympy (pyfloat sympy) (float_literal sympy)
    (Parser.parse_expr sympy)
    (Parser.sympify sympy)
    (diff sympy) (str sympy) (latex sympy) (subs sympy)
    (free_symbols sympy) (evalf sympy) (float sympy)
    (im sympy) (re sympy) (abs sympy) (gt sympy).

(** ** A reference model of the SymPy core

    Expressions are trees over exact complex rationals.  The constructors
    [add], [mul] and [pow] apply the part of SymPy's automatic evaluation
    that folds numbers and removes neutral elements; terms keep the order
    in which they were built.  Python floats are modelled as exact
    rationals, so [subs] and [evalf] compute without rounding on
    expressions made of the four operations and integer powers.  What
    would need real arithmetic ([pi], [E], function values, roots) raises
    [py.NotModelled]. *)

Module Reference.

Inductive expr : Type :=
| Num (real imag : Q)
| Sym (name : string)
| Pi
| Euler
| Add (a b : expr)
| Mul (a b : expr)
| Pow (a b : expr)
| App (f : sp.function) (args : list expr).

(** *** Numbers *)

Definition q (n : Z) : Q := inject_Z n.

Definition Qzero (x : Q) : bool := Qeq_bool x (q 0).

Definition is_integer (x : Q) : bool := (Qden (Qred x) =? 1)%positive.

Definition num (a b : Q) : expr := Num (Qred a) (Qred b).

Definition int (n : Z) : expr := num (q n) (q 0).

Definition is_zero (e : expr) : bool :=
  match e with Num a b => Qzero a && Qzero b | _ => false end.

Definition is_one (e : expr) : bool :=
  match e with Num a b => Qeq_bool a (q 1) && Qzero b | _ => false end.

Definition cmul (x y : Q * Q) : Q * Q :=
  (Qred (x.1 * y.1 - x.2 * y.2), Qred (x.1 * y.2 + x.2 * y.1))%Q.

Definition cinv (x : Q * Q) : Q * Q :=
  let n := (x.1 * x.1 + x.2 * x.2)%Q in
  (Qred (x.1 / n), Qred (- x.2 / n))%Q.

Fixpoint cpow_nat (x : Q * Q) (n : nat) : Q * Q :=
  match n with
  | O => (q 1, q 0)
  | S n' => cmul x (cpow_nat x n')
  end.

(** *** Automatic evaluation *)

Definition add (x y : expr) : expr :=
  match x, y with
  | Num a b, Num c d => num (a + c) (b + d)
  | _, _ => if is_zero x then y else if is_zero y then x else Add x y
  end.

(** An expression as a numeric coefficient times the rest, if any. *)
Definition coefficient (e : expr) : (Q * Q) * option expr :=
  match e with
  | Num a b => ((a, b), None)
  | Mul (Num a b) w => ((a, b), Some w)
  | _ => ((q 1, q 0), Some e)
  end.

(** Products keep one numeric coefficient, in front. *)
Definition mul (x y : expr) : expr :=
  let '(c1, r1) := coefficient x in
  let '(c2, r2) := coefficient y in
  let c := cmul c1 c2 in
  let rest :=
    match r1, r2 with
    | Some u, Some v => Some (Mul u v)
    | Some u, None | None, Some u => Some u
    | None, None => None
    end in
  match rest with
  | None => num c.1 c.2
  | Some r =>
      if Qzero c.1 && Qzero c.2 then int 0
      else if Qeq_bool c.1 (q 1) && Qzero c.2 then r
      else Mul (num c.1 c.2) r
  end.

(** The square root of a rational that is a perfect square, up to
    sign: [sqrt(-4) = 2*I]. *)
Definition exact_sqrt (a : Q) : option (Q * Q) :=
  let a := Qred a in
  let n := Z.abs (Qnum a) in
  let d := Z.pos (Qden a) in
  if ((Z.sqrt n * Z.sqrt n =? n) && (Z.sqrt d * Z.sqrt d =? d))%Z then
    let r := Qred (Qmake (Z.sqrt n) (Z.to_pos (Z.sqrt d))) in
    Some (if (Qnum a <? 0)%Z then (q 0, r) else (r, q 0))
  else None.

(** [None]: a power of zero with a negative exponent, SymPy's [zoo]. *)
Definition pow (x y : expr) : option expr :=
  match x, y with
  | Num a b, Num c d =>
      if Qzero d && is_integer c then
        let n := Qnum (Qred c) in
        if (0 <=? n)%Z then
          let p := cpow_nat (a, b) (Z.to_nat n) in Some (num p.1 p.2)
        else if is_zero x then None
        else
          let p := cpow_nat (cinv (a, b)) (Z.to_nat (- n)) in
          Some (num p.1 p.2)
      else if is_one x then Some (int 1)
      else if Qzero d && Qzero b && Qeq_bool c (1 # 2) then
        match exact_sqrt a with
        | Some r => Some (num r.1 r.2)
        | None => Some (Pow x y)
        end
      else if Qzero d && Qzero b && Qeq_bool c (-1 # 2) then
        match exact_sqrt a with
        | Some r =>
            if is_zero x then None
            else let i := cinv r in Some (num i.1 i.2)
        | None => Some (Pow x y)
        end
      else Some (Pow x y)
  | _, _ =>
      if is_zero y then Some (int 1)
      else if is_one y then Some x
      else if is_one x then Some (int 1)
      else Some (Pow x y)
  end.

Definition zoo {A : Type} : exc A :=
  Parser.not_modelled "complex infinity".

Definition pow_ (x y : expr) : exc expr :=
  match pow x y with
  | Some e => Return e
  | None => zoo
  end.

Definition neg (x : expr) : expr := mul (int (-1)) x.

Definition sub (x y : expr) : expr := add x (neg y).

Definition truediv (x y : expr) : exc expr :=
  i <- pow_ y (int (-1)) ;; Return (mul x i).

Definition half : expr := num (1 # 2) (q 0).

(** The number of arguments each function accepts. *)
Definition arity (f : sp.function) : nat * nat :=
  match f with
  | sp.log | sp.zeta | sp.LambertW | sp.elliptic_e | sp.beta => (1, 2)
  | sp.besselj | sp.bessely | sp.besseli | sp.besselk
  | sp.hermite => (2, 2)
  | sp.assoc_legendre => (3, 3)
  | sp.Ynm => (4, 4)
  | _ => (1, 1)
  end%nat.

(** [sp.f(args)].  [sqrt] is a power; the other functions stay applied,
    with SymPy's exact values at the origin.  [hermite] with a number as
    its index is a polynomial, and SymPy refuses a negative index with a
    [ValueError]. *)
Definition call (f : sp.function) (args : list expr) : exc expr :=
  let n := length args in
  if negb ((arity f).1 <=? n)%nat || negb (n <=? (arity f).2)%nat then
    py.raise py.TypeError (sp.name f +:+ " takes a different number of arguments")
  else
    match f, args with
    | sp.sqrt, [x] => pow_ x half
    | (sp.sin | sp.tan | sp.sinh | sp.tanh | sp.asin | sp.atan | sp.asinh
       | sp.atanh | sp.erf), [x] =>
        if is_zero x then Return (int 0) else Return (App f [x])
    | (sp.cos | sp.cosh | sp.exp | sp.sec | sp.sech | sp.sinc | sp.erfc), [x] =>
        if is_zero x then Return (int 1) else Return (App f [x])
    | sp.log, [x] =>
        if is_one x then Return (int 0)
        else if is_zero x then zoo
        else match x with
             | Euler => Return (int 1)
             | _ => Return (App f [x])
             end
    | sp.log, [x; b] =>
        lx <- (if is_one x then Return (int 0) else
               if is_zero x then zoo else Return (App sp.log [x])) ;;
        lb <- (if is_one b then Return (int 0) else
               if is_zero b then zoo else Return (App sp.log [b])) ;;
        i <- pow_ lb (int (-1)) ;;
        Return (mul lx i)
    | sp.hermite, [Num a b; x] =>
        if Qzero b && is_integer a && negb (Qle_bool (q 0) a) then
          py.raise py.ValueError
            ("The index n must be nonnegative integer (got "
             +:+ pretty (Qnum (Qred a)) +:+ ")")
        else Parser.not_modelled "Hermite polynomials"
    | _, _ => Return (App f args)
    end.

(** [sp.Rational(p, q)] on integers; SymPy refuses anything else. *)
Definition Rational (p r : expr) : exc expr :=
  match p, r with
  | Num a b, Num c d =>
      if Qzero b && Qzero d && is_integer a && is_integer c then
        if Qzero c then zoo else Return (num (a / c) (q 0))
      else py.raise py.TypeError "invalid input"
  | _, _ => py.raise py.TypeError "invalid input"
  end.

Definition algebra : Algebra :=
  Build_Algebra expr Sym int Rational Pi Euler (num (q 0) (q 1)) call
    (fun x y => Return (add x y))
    (fun x y => Return (sub x y))
    (fun x y => Return (mul x y))
    truediv
    pow_
    (fun x => Return (neg x))
    (fun x => Return x).


(** *** Calculus *)

Fixpoint free_symbols (e : expr) : gset string :=
  match e with
  | Sym s => {[ s ]}
  | Add a b | Mul a b | Pow a b => free_symbols a ∪ free_symbols b
  | App _ args =>
      (fix go (l : list expr) : gset string :=
         match l with
         | [] => ∅
         | a :: l' => free_symbols a ∪ go l'
         end) args
  | Num _ _ | Pi | Euler => ∅
  end.

Definition depends_on (x : string) (e : expr) : bool :=
  bool_decide (x ∈ free_symbols e).

(** The derivative of [f(u)] with respect to [u]. *)
Definition fdiff (f : sp.function) (u : expr) : exc expr :=
  match f with
  | sp.sin => call sp.cos [u]
  | sp.cos => s <- call sp.sin [u] ;; Return (neg s)
  | sp.tan =>
      t <- call sp.tan [u] ;; t2 <- pow_ t (int 2) ;;
      Return (add t2 (int 1))
  | sp.exp => call sp.exp [u]
  | sp.log => pow_ u (int (-1))
  | sp.sinh => call sp.cosh [u]
  | sp.cosh => call sp.sinh [u]
  | sp.tanh =>
      t <- call sp.tanh [u] ;; t2 <- pow_ t (int 2) ;;
      Return (sub (int 1) t2)
  | sp.asin =>
      u2 <- pow_ u (int 2) ;;
      pow_ (sub (int 1) u2) (num (-1 # 2) (q 0))
  | sp.acos =>
      u2 <- pow_ u (int 2) ;;
      r <- pow_ (sub (int 1) u2) (num (-1 # 2) (q 0)) ;;
      Return (neg r)
  | sp.atan =>
      u2 <- pow_ u (int 2) ;;
      pow_ (add u2 (int 1)) (int (-1))
  | _ => Parser.not_modelled ("the derivative of " +:+ sp.name f)
  end.

(** [sp.diff(e, Symbol(x))]: sum, product, power and chain rules. *)
Fixpoint diff_symbol (x : string) (e : expr) : exc expr :=
  match e with
  | Num _ _ | Pi | Euler => Return (int 0)
  | Sym s => Return (if String.eqb s x then int 1 else int 0)
  | Add a b =>
      da <- diff_symbol x a ;;
      db <- diff_symbol x b ;;
      Return (add da db)
  | Mul a b =>
      da <- diff_symbol x a ;;
      db <- diff_symbol x b ;;
      Return (add (mul da b) (mul a db))
  | Pow a b =>
      da <- diff_symbol x a ;;
      db <- diff_symbol x b ;;
      if is_zero db then
        p <- pow_ a (sub b (int 1)) ;;
        Return (mul (mul b p) da)
      else
        l <- call sp.log [a] ;;
        r <- truediv (mul b da) a ;;
        Return (mul (Pow a b) (add (mul db l) r))
  | App f args =>
      if negb (depends_on x e) then Return (int 0)
      else
        match args with
        | [u] =>
            du <- diff_symbol x u ;;
            d <- fdiff f u ;;
            Return (mul d du)
        | _ =>
            Parser.not_modelled
              ("the derivative of " +:+ sp.name f +:+ " of several arguments")
        end
  end.

Definition diff (e wrt : expr) : exc expr :=
  match wrt with
  | Sym x => diff_symbol x e
  | _ => py.raise py.ValueError "Can't calculate derivative wrt this expression."
  end.

(** *** Substitution and numeric evaluation *)

(** Replace the symbol named [x] by [v] and evaluate the result again. *)
Fixpoint replace (x : string) (v e : expr) : exc expr :=
  match e with
  | Sym y => Return (if String.eqb x y then v else e)
  | Add a b =>
      a' <- replace x v a ;; b' <- replace x v b ;; Return (add a' b')
  | Mul a b =>
      a' <- replace x v a ;; b' <- replace x v b ;; Return (mul a' b')
  | Pow a b =>
      a' <- replace x v a ;; b' <- replace x v b ;; pow_ a' b'
  | App f args =>
      args' <- (fix go (l : list expr) : exc (list expr) :=
                  match l with
                  | [] => Return []
                  | a :: l' =>
                      a' <- replace x v a ;;
                      l'' <- go l' ;;
                      Return (a' :: l'')
                  end) args ;;
      call f args'
  | Num _ _ | Pi | Euler => Return e
  end.

(** [e.subs(d)]: a key given as a string stands for the symbol of that
    name, so a key such as ["pi"] or ["E"] leaves the constant alone. *)
Definition subs_item (e : expr) (item : string * Q) : exc expr :=
  replace item.1 (num item.2 (q 0)) e.

Definition subs (e : expr) (d : gmap string Q) : exc expr :=
  py.for_in (map_to_list d) subs_item e.

(** [e.evalf()]: numbers are already exact; an expression with free
    symbols is left as it is. *)
Definition evalf (e : expr) : exc expr :=
  match e with
  | Num _ _ => Return e
  | _ =>
      if decide (free_symbols e = ∅)
      then Parser.not_modelled "real arithmetic"
      else Return e
  end.

Definition float (e : expr) : exc Q :=
  match e with
  | Num a b =>
      if Qzero b then Return a
      else py.raise py.TypeError "Cannot convert complex to float"
  | _ => py.raise py.TypeError "Cannot convert expression to float"
  end.

Definition im (e : expr) : exc expr :=
  match e with
  | Num a b => Return (num b (q 0))
  | _ => Parser.not_modelled "im of a symbolic expression"
  end.

Definition re (e : expr) : exc expr :=
  match e with
  | Num a b => Return (num a (q 0))
  | _ => Parser.not_modelled "re of a symbolic expression"
  end.

Definition Qabs_ (a : Q) : Q :=
  if Qle_bool (q 0) a then a else Qred (- a).

Definition abs (e : expr) : exc expr :=
  match e with
  | Num a b =>
      if Qzero b then Return (num (Qabs_ a) (q 0))
      else Parser.not_modelled "the modulus of a complex number"
  | _ => Parser.not_modelled "abs of a symbolic expression"
  end.

(** The truth value of [e > x]. *)
Definition gt (e : expr) (x : Q) : exc bool :=
  match e with
  | Num a b =>
      if Qzero b then Return (negb (Qle_bool a x))
      else py.raise py.TypeError "Invalid comparison of non-real"
  | _ => py.raise py.TypeError "cannot determine truth value of Relational"
  end.

(** The Python float written [m * 10^e]. *)
Definition float_literal (m e : Z) : Q := Qred (q m * Qpower (q 10) e).


(** *** Printing *)

Definition Qnegative (a : Q) : bool := negb (Qle_bool (q 0) a).

Definition str_Z (n : Z) : string := pretty n.

Definition str_Q (a : Q) : string :=
  let a := Qred a in
  if (Qden a =? 1)%positive then str_Z (Qnum a)
  else str_Z (Qnum a) +:+ "/" +:+ str_Z (Z.pos (Qden a)).

Definition str_number (a b : Q) : string :=
  let imaginary :=
    if Qeq_bool b (q 1) then "I"
    else if Qeq_bool b (q (-1)) then "-I"
    else str_Q b +:+ "*I" in
  if Qzero b then str_Q a
  else if Qzero a then imaginary
  else
    match imaginary with
    | String "-" rest => str_Q a +:+ " - " +:+ rest
    | _ => str_Q a +:+ " + " +:+ imaginary
    end.

(** SymPy's printing precedences: 40 for sums and for what prints with
    a leading minus, 50 for products and fractions, 60 for powers. *)
Definition precedence (e : expr) : nat :=
  match e with
  | Num a b =>
      if Qzero b then
        if Qnegative a then 40 else if is_integer a then 1000 else 50
      else if Qzero a then
        if Qeq_bool b (q 1) then 1000 else if Qnegative b then 40 else 50
      else 40
  | Sym _ | Pi | Euler | App _ _ => 1000
  | Add _ _ => 40
  | Mul (Num a b) _ => if Qnegative a then 40 else 50
  | Mul _ _ => 50
  | Pow _ (Num a b) =>
      if Qzero b && Qeq_bool a (1 # 2) then 1000
      else if Qzero b && Qnegative a then 50
      else 60
  | Pow _ _ => 60
  end.

Definition parens (s : string) : string := "(" +:+ s +:+ ")".

(** [e] printed as the operand of an operator of precedence [level]. *)
Definition operand (level : nat) (e : expr) (s : string) : string :=
  if (precedence e <=? level)%nat then parens s else s.

Definition is_half (e : expr) : bool :=
  match e with Num a b => Qzero b && Qeq_bool a (1 # 2) | _ => false end.

(** The exponent of a factor that prints in a denominator. *)
Definition negative_exponent (e : expr) : option Q :=
  match e with
  | Num a b => if Qzero b && Qnegative a then Some (Qred (- a)) else None
  | _ => None
  end.

(** [base ** e] for a positive rational [e], given the printed base. *)
Definition str_power (base : expr) (printed : string) (e : Q) : string :=
  if Qeq_bool e (q 1) then operand 50 base printed
  else if Qeq_bool e (1 # 2) then "sqrt" +:+ parens printed
  else operand 60 base printed +:+ "**"
       +:+ (if is_integer e then str_Q e else parens (str_Q e)).

Definition join_sum (left right : string) : string :=
  match right with
  | String "-" rest => left +:+ " - " +:+ rest
  | _ => left +:+ " + " +:+ right
  end.

Fixpoint str (e : expr) : string :=
  match e with
  | Num a b => str_number a b
  | Sym s => s
  | Pi => "pi"
  | Euler => "E"
  | Add a b => join_sum (str a) (str b)
  | Mul a b =>
      let tail :=
        match b with
        | Pow d x =>
            match negative_exponent x with
            | Some n => "/" +:+ str_power d (str d) n
            | None => "*" +:+ operand 49 b (str b)
            end
        | _ => "*" +:+ operand 49 b (str b)
        end in
      match a with
      | Num c c' =>
          if Qzero c' then
            let c := Qred c in
            let numerator := Z.abs (Qnum c) in
            let sign := if Qnegative c then "-" else "" in
            let head :=
              match tail with
              | String "*" rest =>
                  if (numerator =? 1)%Z then rest
                  else str_Z numerator +:+ tail
              | _ => str_Z numerator +:+ tail
              end in
            sign +:+ head
            +:+ (if (Qden c =? 1)%positive then ""
                 else "/" +:+ str_Z (Z.pos (Qden c)))
          else operand 49 a (str a) +:+ tail
      | _ => operand 49 a (str a) +:+ tail
      end
  | Pow a b =>
      if is_half b then "sqrt" +:+ parens (str a)
      else
        match negative_exponent b with
        | Some n =>
            if Qeq_bool n (q 1) || Qeq_bool n (1 # 2)
            then "1/" +:+ str_power a (str a) n
            else operand 60 a (str a) +:+ "**" +:+ parens (str b)
        | None => operand 60 a (str a) +:+ "**" +:+ operand 60 b (str b)
        end
  | App f args =>
      sp.name f +:+ parens (String.concat ", " (List.map str args))
  end.

(** [latex(e, mul_symbol=...)]. *)
Definition latex_mul_symbol (mul_symbol : string) : string :=
  if String.eqb mul_symbol "dot" then " \cdot "
  else if String.eqb mul_symbol "times" then " \times "
  else " ".

Fixpoint split_at_underscore (s : string) (rev_head : string)
  : string * option string :=
  match s with
  | EmptyString => (Parser.rev rev_head, None)
  | String c s' =>
      if (Parser.code c =? 95)%N then (Parser.rev rev_head, Some s')
      else split_at_underscore s' (String c rev_head)
  end.

Definition latex_symbol (s : string) : string :=
  match split_at_underscore s EmptyString with
  | (head, Some sub) => head +:+ "_{" +:+ sub +:+ "}"
  | (head, None) => head
  end.

Definition latex_Q (a : Q) : string :=
  let a := Qred a in
  if (Qden a =? 1)%positive then str_Z (Qnum a)
  else (if Qnegative a then "- " else "")
       +:+ "\frac{" +:+ str_Z (Z.abs (Qnum a)) +:+ "}{"
       +:+ str_Z (Z.pos (Qden a)) +:+ "}".

Definition latex_number (a b : Q) : string :=
  let imaginary :=
    if Qeq_bool b (q 1) then "i"
    else if Qeq_bool b (q (-1)) then "- i"
    else latex_Q b +:+ " i" in
  if Qzero b then latex_Q a
  else if Qzero a then imaginary
  else latex_Q a +:+ " + " +:+ imaginary.

Definition latex_parens (s : string) : string :=
  "\left(" +:+ s +:+ "\right)".

Definition latex_operand (level : nat) (e : expr) (s : string) : string :=
  if (precedence e <=? level)%nat then latex_parens s else s.

Definition latex_join_sum (left right : string) : string :=
  match right with
  | String "-" (String " " rest) => left +:+ " - " +:+ rest
  | String "-" rest => left +:+ " - " +:+ rest
  | _ => left +:+ " + " +:+ right
  end.

Fixpoint latex_of (sep : string) (e : expr) : string :=
  match e with
  | Num a b => latex_number a b
  | Sym s => latex_symbol s
  | Pi => "\pi"
  | Euler => "e"
  | Add a b => latex_join_sum (latex_of sep a) (latex_of sep b)
  | Mul a b =>
      latex_operand 49 a (latex_of sep a) +:+ sep
      +:+ latex_operand 49 b (latex_of sep b)
  | Pow a b =>
      if is_half b then "\sqrt{" +:+ latex_of sep a +:+ "}"
      else
        match negative_exponent b with
        | Some n =>
            "\frac{1}{"
            +:+ (if Qeq_bool n (q 1) then latex_of sep a
                 else if Qeq_bool n (1 # 2)
                 then "\sqrt{" +:+ latex_of sep a +:+ "}"
                 else latex_operand 60 a (latex_of sep a)
                      +:+ "^{" +:+ latex_Q n +:+ "}")
            +:+ "}"
        | None =>
            latex_operand 60 a (latex_of sep a)
            +:+ "^{" +:+ latex_of sep b +:+ "}"
        end
  | App f args =>
      "\operatorname{" +:+ sp.name f +:+ "}{\left("
      +:+ String.concat ", " (List.map (latex_of sep) args)
      +:+ " \right)}"
  end.

Definition latex (e : expr) (mul_symbol : string) : exc string :=
  Return (latex_of (latex_mul_symbol mul_symbol) e).

(** *** The model as an implementation of the interface *)

Definition sympy : SymPy :=
  Build_SymPy algebra Q float_literal
    (Parser.parse_expr algebra)
    (Parser.sympify algebra)
    diff str latex subs free_symbols evalf float im re abs gt.

End Reference.

(** * Properties *)

(** ** The error monad and the loops *)

Lemma bind_Return {A B : Type} (m : exc A) (k : A -> exc B) (b : B) :
  py.bind m k = Return b -> exists a, m = Return a /\ k a = Return b.
Proof. destruct m as [a|e]; simpl; [eauto | discriminate]. Qed.

Lemma for_in_app {A S : Type} (xs ys : list A) (body : S -> A -> exc S) (s : S) :
  py.for_in (xs ++ ys) body s
  = py.bind (py.for_in xs body s) (py.for_in ys body).
Proof.
  revert s. induction xs as [|x xs IH]; intros s; simpl; [reflexivity|].
  destruct (body s x) as [s'|e]; simpl; [apply IH | reflexivity].
Qed.

(** [except Exception] catches every class, and a [SympifyError] is also a
    [ValueError]. *)
Lemma issubclass_Exception (c : py.exception_class) :
  py.issubclass c py.Exception = true.
Proof. reflexivity. Qed.

Lemma SympifyError_is_ValueError (e : py.exception) :
  py.isinstance e py.SympifyError = true -> py.isinstance e py.ValueError = true.
Proof. destruct e as [[] msg]; simpl; congruence. Qed.

(** ** Control flow of [calculate_symbolic_data], for every SymPy *)

Section Facts.

Context (sympy : SymPy).

Lemma except_is_failure (formula : string) (e : py.exception) :
  exists message,
    calculate_symbolic_data_except sympy formula e
    = failure sympy formula message.
Proof.
  unfold calculate_symbolic_data_except.
  destruct (py.isinstance e py.SympifyError); [eauto|].
  destruct (py.isinstance e py.ValueError); eauto.
Qed.

(** The handler chosen for an exception that is no [ValueError]. *)
Lemma except_unexpected (formula : string) (e : py.exception) :
  py.isinstance e py.ValueError = false ->
  calculate_symbolic_data_except sympy formula e
  = failure sympy formula ("Unexpected error: " +:+ py.str_of e).
Proof.
  intros H. unfold calculate_symbolic_data_except. rewrite H.
  destruct (py.isinstance e py.SympifyError) eqn:Hs; [|reflexivity].
  apply SympifyError_is_ValueError in Hs. congruence.
Qed.

(** The handlers chosen for a [SympifyError] and for any other
    [ValueError]. *)
Lemma except_invalid_syntax (formula : string) (e : py.exception) :
  py.isinstance e py.SympifyError = true ->
  calculate_symbolic_data_except sympy formula e
  = failure sympy formula ("Invalid formula syntax: " +:+ py.str_of e).
Proof.
  intros H. unfold calculate_symbolic_data_except. rewrite H. reflexivity.
Qed.

Lemma except_evaluation (formula : string) (e : py.exception) :
  py.class_of e = py.ValueError ->
  calculate_symbolic_data_except sympy formula e
  = failure sympy formula ("Evaluation error: " +:+ py.str_of e).
Proof.
  intros H. unfold calculate_symbolic_data_except, py.isinstance.
  rewrite H. reflexivity.
Qed.

Lemma try_success formula variables values r :
  calculate_symbolic_data_try sympy formula variables values = Return r ->
  exists expr numerical_value value_subs,
    evaluate_expression sympy formula variables values
    = Return (expr, derivatives r, value_subs, numerical_value)
    /\ py.for_in variables
         (numerical_derivative_step sympy (derivatives r) value_subs) ∅
       = Return (numerical_derivatives r)
    /\ success r = true.
Proof.
  unfold calculate_symbolic_data_try. intros H.
  apply bind_Return in H as ([[[expr ds] vs] nv] & Hstage & H).
  apply bind_Return in H as (nd & Hloop & H).
  injection H as <-. simpl. exists expr, nv, vs. auto.
Qed.

Lemma failed_call formula variables values :
  success (calculate_symbolic_data sympy formula variables values) = false ->
  exists e,
    calculate_symbolic_data_try sympy formula variables values = Raise e
    /\ calculate_symbolic_data sympy formula variables values
       = calculate_symbolic_data_except sympy formula e.
Proof.
  unfold calculate_symbolic_data.
  destruct (calculate_symbolic_data_try sympy formula variables values)
    as [r|e] eqn:Htry.
  - apply try_success in Htry as (? & ? & ? & _ & _ & ->). discriminate.
  - eauto.
Qed.

Lemma successful_call formula variables values :
  success (calculate_symbolic_data sympy formula variables values) = true ->
  calculate_symbolic_data_try sympy formula variables values
  = Return (calculate_symbolic_data sympy formula variables values).
Proof.
  unfold calculate_symbolic_data.
  destruct (calculate_symbolic_data_try sympy formula variables values)
    as [r|e] eqn:Htry; [reflexivity|].
  destruct (except_is_failure formula e) as [m ->]. discriminate.
Qed.

Lemma evaluate_expression_Return formula variables values expr ds vs nv :
  evaluate_expression sympy formula variables values
  = Return (expr, ds, vs, nv) ->
  _preprocess_formula sympy formula variables (_get_math_functions sympy)
  = Return expr
  /\ derivatives_loop sympy expr variables = Return ds
  /\ value_subs_of sympy variables values = Return vs.
Proof.
  unfold evaluate_expression. intros H.
  apply bind_Return in H as (expr' & Hparse & H).
  apply bind_Return in H as (ds' & Hds & H).
  apply bind_Return in H as (vs' & Hvs & H).
  apply bind_Return in H as (ev & Hsubs & H).
  destruct (decide (free_symbols sympy ev = ∅)); [|discriminate].
  apply bind_Return in H as (ev' & _ & H).
  apply bind_Return in H as (nv' & _ & H).
  injection H as -> -> -> ->. auto.
Qed.

(** Two formulas with the same parse give the same [try] block. *)
Lemma try_depends_on_parse formula formula' variables values :
  _preprocess_formula sympy formula variables (_get_math_functions sympy)
  = _preprocess_formula sympy formula' variables (_get_math_functions sympy) ->
  calculate_symbolic_data_try sympy formula variables values
  = calculate_symbolic_data_try sympy formula' variables values.
Proof.
  intros H. unfold calculate_symbolic_data_try, evaluate_expression.
  rewrite H. reflexivity.
Qed.

Lemma same_parse_same_numbers formula formula' variables values :
  _preprocess_formula sympy formula variables (_get_math_functions sympy)
  = _preprocess_formula sympy formula' variables (_get_math_functions sympy) ->
  let r := calculate_symbolic_data sympy formula variables values in
  let r' := calculate_symbolic_data sympy formula' variables values in
  numerical_value r = numerical_value r'
  /\ numerical_derivatives r = numerical_derivatives r'
  /\ derivatives r = derivatives r'
  /\ success r = success r'
  /\ error r = error r'.
Proof.
  intros H r r'. subst r r'. unfold calculate_symbolic_data.
  rewrite (try_depends_on_parse _ _ _ _ H).
  destruct (calculate_symbolic_data_try sympy formula' variables values)
    as [r|e]; [auto|].
  unfold calculate_symbolic_data_except.
  destruct (py.isinstance e py.SympifyError); [simpl; auto|].
  destruct (py.isinstance e py.ValueError); simpl; auto.
Qed.

(** The keys written by the first loop. *)
Lemma derivatives_loop_dom expr variables (d0 d : gmap string string) :
  py.for_in variables
    (fun derivatives var =>
       py.bind (diff sympy expr (Symbol sympy var))
         (fun deriv => Return (<[var := str sympy deriv]> derivatives))) d0
  = Return d ->
  dom d = dom d0 ∪ (list_to_set variables : gset string).
Proof.
  revert d0. induction variables as [|var variables IH]; intros d0; simpl.
  - intros [= <-]. set_solver.
  - intros H. apply bind_Return in H as (d1 & Hstep & H).
    apply bind_Return in Hstep as (deriv & _ & [= <-]).
    apply IH in H. rewrite H, dom_insert_L. set_solver.
Qed.

(** The comprehension of line 112 runs out of values. *)
Lemma value_subs_short (variables : list string)
    (values : list (pyfloat sympy)) n (d0 : gmap string (pyfloat sympy)) :
  n <= length values ->
  length values < n + length variables ->
  py.for_in (py.enumerate_from n variables)
    (fun d item =>
       let '(i, var) := item in
       py.bind (py.getitem values i) (fun v => Return (<[var := v]> d))) d0
  = py.raise py.IndexError "list index out of range".
Proof.
  revert n d0.
  induction variables as [|var variables IH]; intros n d0 Hn Hshort; simpl in *.
  - lia.
  - unfold py.getitem at 1.
    destruct (values !! n) as [v|] eqn:Hv; simpl; [|reflexivity].
    apply lookup_lt_Some in Hv. apply IH; lia.
Qed.

Lemma step_Return ds vs nd0 var nd1 :
  numerical_derivative_step sympy ds vs nd0 var = Return nd1 ->
  exists dv rv x,
    derivative_value sympy ds vs var = Return dv
    /\ significant_imaginary sympy dv = Return false
    /\ re sympy dv = Return rv
    /\ float sympy rv = Return x
    /\ nd1 = <[var := x]> nd0.
Proof.
  unfold numerical_derivative_step. intros H.
  apply bind_Return in H as (dv & Hdv & H).
  apply bind_Return in H as (b & Hb & H).
  destruct b; [discriminate|].
  apply bind_Return in H as (rv & Hrv & H).
  apply bind_Return in H as (x & Hx & [= <-]).
  exists dv, rv, x. auto.
Qed.

(** Invariant of the second loop: every variable met so far holds the
    float of the real part of its derivative; the other keys are
    untouched. *)
Lemma numerical_loop ds vs (variables : list string) nd0 nd :
  py.for_in variables (numerical_derivative_step sympy ds vs) nd0 = Return nd ->
  (forall var, var ∈ variables ->
     exists dv rv x,
       derivative_value sympy ds vs var = Return dv
       /\ significant_imaginary sympy dv = Return false
       /\ re sympy dv = Return rv
       /\ float sympy rv = Return x
       /\ nd !! var = Some x)
  /\ (forall var, var ∉ variables -> nd !! var = nd0 !! var).
Proof.
  revert nd0. induction variables as [|v variables IH]; intros nd0; simpl.
  - intros [= <-]. split; [intros var Hin; inversion Hin | reflexivity].
  - intros H. apply bind_Return in H as (nd1 & Hstep & Hrest).
    apply step_Return in Hstep as (dv & rv & x & Hdv & Hsig & Hre & Hfl & ->).
    apply IH in Hrest as [Hin Hout]. split.
    + intros var Hvar.
      destruct (decide (var ∈ variables)) as [Hmem|Hmem]; [auto|].
      apply elem_of_cons in Hvar as [->|Hvar]; [|contradiction].
      exists dv, rv, x. rewrite (Hout _ Hmem), lookup_insert_eq. auto.
    + intros var Hvar. apply not_elem_of_cons in Hvar as [Hne Hvar].
      rewrite (Hout _ Hvar). by rewrite lookup_insert_ne.
Qed.

(** C2 (as amended).  Whenever [calculate_symbolic_data] reports
    [success = false], the result carries the input formula unchanged in
    ["expression"], the float [0.0] in ["numerical_value"], empty dicts in
    ["derivatives"] and ["numerical_derivatives"], and an error message:
    nothing computed before the failure is kept. *)
Theorem C2_failure_resets_fields formula variables values :
  let r := calculate_symbolic_data sympy formula variables values in
  success r = false ->
  expression r = formula
  /\ numerical_value r = float_literal sympy 0 0
  /\ derivatives r = ∅
  /\ numerical_derivatives r = ∅
  /\ exists category detail,
       category ∈ ["Invalid formula syntax: "; "Evaluation error: ";
                   "Unexpected error: "]
       /\ error r = Some (category +:+ detail).
Proof.
  intros r Hfail. subst r.
  apply failed_call in Hfail as (e & _ & ->).
  unfold calculate_symbolic_data_except.
  destruct (py.isinstance e py.SympifyError);
    [|destruct (py.isinstance e py.ValueError)];
    simpl; repeat split; eexists _, (py.str_of e);
    (split; [|reflexivity]); set_solver.
Qed.

(** C6 (as amended).  On every successful call the key set of
    ["derivatives"] is exactly the set of the declared variables. *)
Theorem C6_derivative_keys_on_success formula variables values :
  let r := calculate_symbolic_data sympy formula variables values in
  success r = true ->
  dom (derivatives r) = (list_to_set variables : gset string).
Proof.
  intros r Hok. subst r. apply successful_call in Hok.
  apply try_success in Hok as (expr & nv & vs & Hstage & _ & _).
  apply evaluate_expression_Return in Hstage as (_ & Hds & _).
  apply derivatives_loop_dom in Hds. rewrite Hds. set_solver.
Qed.

(** C10 (as amended).  When [values] is shorter than [variables] the call
    raises nothing and returns a result with [success = false], and the
    category of its message is that of the first failure in the order of
    the source.  Once the formula has been parsed and differentiated, the
    failure is the [IndexError] raised while the substitution mapping is
    built, which only the catch-all handler matches: the message is
    ["Unexpected error: list index out of range"], not an evaluation
    error.  If parsing or a derivative fails first, line 112 is never
    reached and the handler is the one of that earlier exception: a
    [ValueError] gives ["Evaluation error: ..."] whatever the lengths. *)
Theorem C10_short_values_unexpected formula variables values :
  length values < length variables ->
  let r := calculate_symbolic_data sympy formula variables values in
  let parsed :=
    _preprocess_formula sympy formula variables (_get_math_functions sympy) in
  success r = false
  /\ (forall expr ds,
        parsed = Return expr ->
        derivatives_loop sympy expr variables = Return ds ->
        error r = Some "Unexpected error: list index out of range")
  /\ (forall e,
        parsed = Raise e ->
        r = calculate_symbolic_data_except sympy formula e)
  /\ (forall expr e,
        parsed = Return expr ->
        derivatives_loop sympy expr variables = Raise e ->
        r = calculate_symbolic_data_except sympy formula e).
Proof.
  intros Hshort r parsed. subst r parsed.
  assert (Hvs : value_subs_of sympy variables values
                = py.raise py.IndexError "list index out of range")
    by (apply value_subs_short; lia).
  split; [|split; [|split]].
  - destruct (success (calculate_symbolic_data sympy formula variables values))
      eqn:Hok; [|reflexivity].
    apply successful_call, try_success in Hok
      as (expr & nv & vs & Hstage & _ & _).
    apply evaluate_expression_Return in Hstage as (_ & _ & Hvs').
    rewrite Hvs in Hvs'. discriminate.
  - intros expr ds Hparse Hds.
    unfold calculate_symbolic_data, calculate_symbolic_data_try,
      evaluate_expression.
    rewrite Hparse. simpl. rewrite Hds. simpl. rewrite Hvs. reflexivity.
  - intros e Hparse.
    unfold calculate_symbolic_data, calculate_symbolic_data_try,
      evaluate_expression.
    rewrite Hparse. reflexivity.
  - intros expr e Hparse Hds.
    unfold calculate_symbolic_data, calculate_symbolic_data_try,
      evaluate_expression.
    rewrite Hparse. simpl. rewrite Hds. reflexivity.
Qed.

(** C4 (as amended).  Once the expression's own value has been computed,
    the second loop checks the variables in the order of declaration.
    If the loop reaches a variable (all earlier ones passed) whose
    derivative value has [abs(im) > 1e-10], the call fails with
    ["Evaluation error: Derivative with respect to <var> has a significant
    imaginary part."]; and on every successful call each declared variable
    passed the check and its numerical derivative is [float(re(value))],
    the imaginary part being dropped. *)
Theorem C4_imaginary_derivative_check formula variables values expr ds vs nv :
  evaluate_expression sympy formula variables values
  = Return (expr, ds, vs, nv) ->
  (forall before var after nd dv,
     variables = before ++ var :: after ->
     py.for_in before (numerical_derivative_step sympy ds vs) ∅ = Return nd ->
     derivative_value sympy ds vs var = Return dv ->
     significant_imaginary sympy dv = Return true ->
     calculate_symbolic_data sympy formula variables values
     = failure sympy formula ("Evaluation error: " +:+ imaginary_message var))
  /\ (success (calculate_symbolic_data sympy formula variables values) = true ->
      forall var, var ∈ variables ->
        exists dv rv x,
          derivative_value sympy ds vs var = Return dv
          /\ significant_imaginary sympy dv = Return false
          /\ re sympy dv = Return rv
          /\ float sympy rv = Return x
          /\ numerical_derivatives
               (calculate_symbolic_data sympy formula variables values) !! var
             = Some x).
Proof.
  intros Hstage. split.
  - intros before var after nd dv -> Hbefore Hdv Hsig.
    unfold calculate_symbolic_data, calculate_symbolic_data_try.
    rewrite Hstage. simpl. rewrite for_in_app, Hbefore. simpl.
    unfold numerical_derivative_step at 1. rewrite Hdv. simpl.
    rewrite Hsig. reflexivity.
  - intros Hok var Hvar.
    apply successful_call, try_success in Hok
      as (expr' & nv' & vs' & Hstage' & Hloop & _).
    rewrite Hstage in Hstage'. injection Hstage' as <- Hds <- <-.
    rewrite <- Hds in Hloop.
    apply numerical_loop in Hloop as [Hin _]. auto.
Qed.

(** The binding of a name in [combined_locals]: the library's entry if
    there is one, else the symbol of a declared variable. *)
Lemma combined_locals_lookup variables name :
  combined_locals sympy variables (_get_math_functions sympy) !! name
  = match _get_math_functions sympy !! name with
    | Some entry => Some entry
    | None =>
        if bool_decide (name ∈ variables)
        then Some (Obj (Symbol sympy name)) else None
    end.
Proof.
  unfold combined_locals, py.dict_merge. rewrite lookup_union.
  destruct (_get_math_functions sympy !! name) as [entry|];
    [by destruct (symbols_of sympy variables !! name)|].
  rewrite (left_id None _). unfold symbols_of.
  case_bool_decide as Hin.
  - apply elem_of_list_to_map_1'.
    + intros y Hy. apply list_elem_of_fmap in Hy as (v & [= <- ->] & _).
      reflexivity.
    + apply list_elem_of_fmap. eauto.
  - apply not_elem_of_list_to_map_1. rewrite <- list_fmap_compose.
    intros Hy. apply list_elem_of_fmap in Hy as (v & -> & Hv). apply Hin, Hv.
Qed.

End Facts.

Section MissingVariables.

Context (sympy : SymPy).

(** The check of line 114, for every SymPy. *)
Lemma free_symbols_left formula variables values expr ds vs ev :
  _preprocess_formula sympy formula variables (_get_math_functions sympy)
  = Return expr ->
  derivatives_loop sympy expr variables = Return ds ->
  value_subs_of sympy variables values = Return vs ->
  subs sympy expr vs = Return ev ->
  free_symbols sympy ev <> ∅ ->
  calculate_symbolic_data sympy formula variables values
  = failure sympy formula ("Evaluation error: " +:+ missing_variables_message).
Proof.
  intros Hparse Hds Hvs Hsubs Hfree.
  unfold calculate_symbolic_data, calculate_symbolic_data_try,
    evaluate_expression.
  rewrite Hparse. simpl. rewrite Hds. simpl. rewrite Hvs. simpl.
  rewrite Hsubs. simpl.
  destruct (decide (free_symbols sympy ev = ∅)); [contradiction|reflexivity].
Qed.

(** A parse failure is reported by the handler that matches its class. *)
Lemma parse_failure formula variables values e :
  _preprocess_formula sympy formula variables (_get_math_functions sympy)
  = Raise e ->
  calculate_symbolic_data sympy formula variables values
  = calculate_symbolic_data_except sympy formula e.
Proof.
  intros H.
  unfold calculate_symbolic_data, calculate_symbolic_data_try,
    evaluate_expression.
  rewrite H. reflexivity.
Qed.

End MissingVariables.

(** ** The reference parser *)

Lemma parse_S implicit callable fuel nt ts :
  Parser.parse implicit callable (S fuel) nt ts
  = Parser.production implicit callable
      (Parser.parse implicit callable fuel) nt ts.
Proof. reflexivity. Qed.

Ltac call IH rest :=
  match goal with
  | |- context [Parser.parse ?i ?c ?f ?nt ?ts] =>
      let H := fresh "H" in
      let a := fresh "a" in
      let e := fresh "e" in
      assert (H : Parser.within_fuel nt ts (Parser.parse i c f nt ts))
        by (apply IH; simpl in *; lia);
      destruct (Parser.parse i c f nt ts) as [[a rest]|e]; simpl in H |- *;
      [|assumption]
  end.

Ltac next_token ts :=
  let d := fresh "d" in
  let s := fresh "s" in
  let c := fresh "c" in
  destruct ts as [|[d|s|[]|c] ts]; simpl in *.

(** The parser is total: with fuel above eight times the number of
    tokens plus the rank of the nonterminal, [parse] is never cut short,
    and a successful parse consumes at least one token, except for the two
    loop states. *)
Lemma parse_within_fuel implicit callable fuel :
  forall nt ts,
    8 * length ts + Parser.rank nt < fuel ->
    Parser.within_fuel nt ts (Parser.parse implicit callable fuel nt ts).
Proof.
  induction fuel as [|fuel IH]; intros nt ts Hfuel; [lia|].
  rewrite parse_S. unfold Parser.production.
  destruct nt; simpl in Hfuel.
  - call IH r. call IH r'. lia.
  - next_token ts; try lia; call IH r; call IH r'; lia.
  - call IH r. call IH r'. lia.
  - next_token ts; try lia;
      try (destruct implicit; simpl; [|discriminate]);
      call IH r; call IH r'; lia.
  - next_token ts; call IH r; lia.
  - call IH r. next_token r; try lia. call IH r'. lia.
  - next_token ts; try discriminate.
    + destruct (Parser.has_leading_zero d); simpl; [discriminate|lia].
    + next_token ts;
        try (destruct (callable s && implicit); simpl; [discriminate|lia]).
      destruct (callable s || negb implicit); simpl; [|lia].
      call IH r. lia.
    + next_token ts; try discriminate;
        call IH r; next_token r; try discriminate; lia.
  - next_token ts; try lia;
      call IH r; next_token r; try discriminate; try lia;
      call IH r'; lia.
Qed.

Lemma parse_tokens_never_out_of_fuel implicit callable ts :
  match Parser.parse_tokens implicit callable ts with
  | Return _ => True
  | Raise e => py.class_of e <> py.RecursionError
  end.
Proof.
  unfold Parser.parse_tokens.
  pose proof (parse_within_fuel implicit callable (Parser.fuel_for ts)
                Parser.NSum ts) as H.
  destruct (Parser.parse implicit callable (Parser.fuel_for ts) Parser.NSum ts)
    as [[a r]|e]; simpl in *.
  - destruct r as [|[d|s|[]|c] r]; simpl; try discriminate; trivial.
  - apply H. unfold Parser.fuel_for. lia.
Qed.

(** A single name that is not callable parses to itself. *)
Lemma parse_name (callable : string -> bool) (s : string) :
  callable s = false ->
  Parser.parse_tokens true callable [Parser.NAME s] = Return (Parser.AName s).
Proof.
  intros H. unfold Parser.parse_tokens.
  change (Parser.fuel_for [Parser.NAME s]) with (7 + 13)%nat.
  generalize 13%nat as fuel. intros fuel. cbn [Nat.add].
  assert (Hatom : forall f,
    Parser.parse true callable (S f) Parser.NAtom [Parser.NAME s]
    = Return (Parser.AName s, [])).
  { intros f. rewrite parse_S. unfold Parser.production.
    rewrite H. reflexivity. }
  assert (Hpower : forall f,
    Parser.parse true callable (S (S f)) Parser.NPower [Parser.NAME s]
    = Return (Parser.AName s, [])).
  { intros f. rewrite parse_S. unfold Parser.production at 1.
    rewrite Hatom. reflexivity. }
  assert (Hfactor : forall f,
    Parser.parse true callable (S (S (S f))) Parser.NFactor [Parser.NAME s]
    = Return (Parser.AName s, [])).
  { intros f. rewrite parse_S. unfold Parser.production at 1.
    apply Hpower. }
  assert (Hterm : forall f,
    Parser.parse true callable (S (S (S (S (S f))))) Parser.NTerm
      [Parser.NAME s]
    = Return (Parser.AName s, [])).
  { intros f. rewrite parse_S. unfold Parser.production at 1.
    rewrite Hfactor. reflexivity. }
  rewrite parse_S. unfold Parser.production at 1.
  rewrite Hterm. cbn [py.bind fst snd]. rewrite parse_S. reflexivity.
Qed.

(** The formula ["pi"] evaluates to whatever expression the namespace
    binds to that name. *)
Lemma parse_bound_pi (A : Algebra) (d : gmap string (pyobj A)) (e : Expr A) :
  d !! "pi" = Some (Obj e) ->
  Parser.parse_expr A "pi" d
    (sp.standard_transformations ++ [sp.implicit_multiplication_application])
  = Return e.
Proof.
  intros Hd. unfold Parser.parse_expr.
  rewrite decide_True by reflexivity.
  unfold Parser.parse_and_eval.
  change (Parser.tokenize "pi") with [Parser.NAME "pi"].
  cbn [existsb Parser.is_other Parser.paren_scan].
  assert (Hb : Parser.bound A d "pi" = Some (Obj e))
    by (unfold Parser.bound; rewrite Hd; reflexivity).
  change (0 <? 0)%Z with false. cbv iota.
  rewrite parse_name by (unfold Parser.callable; rewrite Hb; reflexivity).
  cbn [py.bind Parser.eval]. unfold Parser.resolve. rewrite Hb. reflexivity.
Qed.

(** The alias and the canonical name parse to the same application. *)
Lemma parse_sen_sin (sympy : SymPy) :
  _preprocess_formula (with_reference_parser sympy) "sen(x)" ["x"]
    (_get_math_functions (with_reference_parser sympy))
  = _preprocess_formula (with_reference_parser sympy) "sin(x)" ["x"]
      (_get_math_functions (with_reference_parser sympy)).
Proof. vm_compute. reflexivity. Qed.

(** ** The Function Library and the reference model on small inputs *)

(** Every name of the table is defined once. *)
Lemma math_function_names_NoDup (sympy : SymPy) :
  NoDup (math_function_items sympy).*1.
Proof. vm_compute. apply (bool_decide_unpack _). vm_compute. reflexivity. Qed.

(** The table has the 56 entries of the source, and an unknown name is
    absent. *)
Lemma math_function_count (sympy : SymPy) :
  length (math_function_items sympy) = 56
  /\ _get_math_functions sympy !! "arcsin" = None.
Proof. split; reflexivity. Qed.

Example tokenize_adjacent :
  Parser.tokenize "2x" = [Parser.NUMBER "2"; Parser.NAME "x"].
Proof. reflexivity. Qed.

Example tokenize_power :
  Parser.tokenize "3*x**2"
  = [Parser.NUMBER "3"; Parser.OP Parser.STAR; Parser.NAME "x";
     Parser.OP Parser.DOUBLESTAR; Parser.NUMBER "2"].
Proof. reflexivity. Qed.

(** The inserted product binds like a written one: ["1/2x"] is [(1/2)*x],
    and ["-x**2 y"] is [(-(x**2))*y]. *)
Example parse_implicit_product :
  Parser.parse_tokens true (fun _ => false) (Parser.tokenize "1/2x")
  = Parser.parse_tokens true (fun _ => false) (Parser.tokenize "1/2*x")
  /\ Parser.parse_tokens true (fun _ => false) (Parser.tokenize "-x**2 y")
     = Return (Parser.ABin Parser.BMul
                 (Parser.ANeg
                    (Parser.ABin Parser.BPow (Parser.AName "x")
                       (Parser.ANum "2")))
                 (Parser.AName "y")).
Proof. split; vm_compute; reflexivity. Qed.

(** Without the transformation (as in [sympify]) adjacency is a syntax
    error. *)
Example parse_adjacent_without_transformation :
  Parser.parse_tokens false (fun _ => false) (Parser.tokenize "2 x")
  = Parser.syntax_error.
Proof. vm_compute. reflexivity. Qed.

Example diff_polynomial :
  (expr <- Parser.sympify Reference.algebra "x**3 + 2*x*y" ;;
   d <- Reference.diff expr (Reference.Sym "x") ;;
   Return (Reference.str d))
  = Return "3*x**2 + 2*y".
Proof. vm_compute. reflexivity. Qed.

Example diff_chain_rule :
  (expr <- Parser.sympify Reference.algebra "sin(x**2)" ;;
   d <- Reference.diff expr (Reference.Sym "x") ;;
   Return (Reference.str d))
  = Return "2*cos(x**2)*x".
Proof. vm_compute. reflexivity. Qed.

(** A derivative survives the round trip through its string. *)
Example derivative_string_round_trip :
  (expr <- Parser.sympify Reference.algebra "x**2/y - sqrt(x)" ;;
   d <- Reference.diff expr (Reference.Sym "x") ;;
   back <- Parser.sympify Reference.algebra (Reference.str d) ;;
   Return (Reference.str d, Reference.str back))
  = Return ("2*x/y - 1/sqrt(x)/2", "2*x/y - 1/sqrt(x)/2").
Proof. vm_compute. reflexivity. Qed.

Example calculate_polynomial :
  let r := calculate_symbolic_data Reference.sympy "x**2 y + 3x/y"
             ["x"; "y"] [inject_Z 4; inject_Z 2] in
  success r = true
  /\ expression r = "x**2*y + 3*x/y"
  /\ derivatives r = {["x" := "2*x*y + 3/y"; "y" := "x**2 - 3*x/y**2"]}
  /\ numerical_value r = inject_Z 38
  /\ numerical_derivatives r = {["x" := 35 # 2; "y" := inject_Z 13]}.
Proof. cbv zeta. repeat split; vm_compute; reflexivity. Qed.

(** ** The claims on concrete formulas

    The calls below are run on [Reference.sympy]: the program of
    [Section Program] over the reference parser and the reference core,
    with Python floats as exact rationals. *)

(** C1 (counterexample).  With ["pi"] declared as a variable, the formula
    ["pi"] still parses to the constant of the library, not to the
    caller's symbol, and the loop of lines 106-109 records ["0"], not
    ["1"], as its partial derivative with respect to ["pi"]. *)
Lemma C1_counterexample_pi :
  let sympy := Reference.sympy in
  _preprocess_formula sympy "pi" ["pi"] (_get_math_functions sympy)
  = Return (pi sympy)
  /\ pi sympy <> Symbol sympy "pi"
  /\ derivatives_loop sympy (pi sympy) ["pi"] = Return {["pi" := "0"]}.
Proof.
  cbv zeta.
  split; [vm_compute; reflexivity|].
  split; [vm_compute; discriminate | vm_compute; reflexivity].
Qed.

(** C1 (as amended).  On a name collision the Function Library wins: for
    every variable list, [combined_locals] binds a name to the library's
    entry when the library has one, and to the caller's symbol only when
    it has none; so the formula ["pi"] parses to the library constant
    whatever the declared variables are, and its partial derivative with
    respect to a declared variable ["pi"] is 0. *)
Theorem C1_library_entry_shadows_variable (sympy : SymPy)
    (variables : list string) :
  (forall name,
     combined_locals sympy variables (_get_math_functions sympy) !! name
     = match _get_math_functions sympy !! name with
       | Some entry => Some entry
       | None =>
           if bool_decide (name ∈ variables)
           then Some (Obj (Symbol sympy name)) else None
       end)
  /\ _preprocess_formula (with_reference_parser sympy) "pi" variables
       (_get_math_functions (with_reference_parser sympy))
     = Return (pi sympy)
  /\ diff Reference.sympy (pi Reference.sympy) (Symbol Reference.sympy "pi")
     = Return (Integer Reference.sympy 0).
Proof.
  split; [apply combined_locals_lookup|]. split; [|reflexivity].
  unfold _preprocess_formula. cbn [parse_expr with_reference_parser].
  apply parse_bound_pi.
  unfold combined_locals, py.dict_merge. apply lookup_union_Some_l.
  reflexivity.
Qed.

(** C2 (counterexample).  [calculate_symbolic_data("x+y", ["x"], [1.0])]
    fails, and its ["expression"] field is the formula ["x+y"], not the
    empty string. *)
Lemma C2_counterexample_expression :
  let r := calculate_symbolic_data Reference.sympy "x+y" ["x"] [inject_Z 1] in
  success r = false /\ expression r = "x+y" /\ expression r <> "".
Proof.
  cbv zeta.
  split; [vm_compute; reflexivity|].
  split; [vm_compute; reflexivity | vm_compute; discriminate].
Qed.

Lemma C2_witness :
  let r := calculate_symbolic_data Reference.sympy "x+y" ["x"] [inject_Z 1] in
  success r = false
  /\ (expression r = "x+y"
      /\ numerical_value r = float_literal Reference.sympy 0 0
      /\ derivatives r = ∅
      /\ numerical_derivatives r = ∅
      /\ exists category detail,
           category ∈ ["Invalid formula syntax: "; "Evaluation error: ";
                       "Unexpected error: "]
           /\ error r = Some (category +:+ detail)).
Proof.
  cbv zeta.
  assert (Hfail :
    success (calculate_symbolic_data Reference.sympy "x+y" ["x"] [inject_Z 1])
    = false) by (vm_compute; reflexivity).
  split; [exact Hfail|].
  exact (C2_failure_resets_fields Reference.sympy "x+y" ["x"] [inject_Z 1]
           Hfail).
Defined.

(** C3.  The formula ["(x"] has an unclosed parenthesis.  The parser
    raises a [TokenError], which is neither a [SympifyError] nor a
    [ValueError]; the call ends in the catch-all handler, with a message
    that starts with ["Unexpected error: "] instead of ["Invalid formula
    syntax: "]. *)
Theorem C3_unbalanced_parenthesis_unexpected :
  let sympy := Reference.sympy in
  (exists e,
     _preprocess_formula sympy "(x" ["x"] (_get_math_functions sympy) = Raise e
     /\ py.class_of e = py.TokenError
     /\ py.isinstance e py.SympifyError = false)
  /\ calculate_symbolic_data sympy "(x" ["x"] [inject_Z 1]
     = failure sympy "(x"
         "Unexpected error: ('EOF in multi-line statement', (2, 0))".
Proof.
  cbv zeta.
  assert (Hparse :
    _preprocess_formula Reference.sympy "(x" ["x"] (_get_math_functions Reference.sympy)
    = Raise (py.Exn py.TokenError "('EOF in multi-line statement', (2, 0))"))
    by (vm_compute; reflexivity).
  split.
  - eexists. split; [exact Hparse|]. split; reflexivity.
  - rewrite (parse_failure Reference.sympy _ _ _ _ Hparse).
    apply except_unexpected. reflexivity.
Qed.

(** C4 (counterexample).  In ["I*(x+y)"] at [x = 1, y = -1] the value of
    the expression is 0 and both partial derivatives are [I].  The
    derivative with respect to [y] has imaginary part 1, above the
    tolerance, but the message of the failed call names [x], the first
    variable checked. *)
Lemma C4_counterexample_second_variable :
  let sympy := Reference.sympy in
  let values := [inject_Z 1; inject_Z (-1)] in
  exists expr ds vs nv dv,
    evaluate_expression sympy "I*(x+y)" ["x"; "y"] values
    = Return (expr, ds, vs, nv)
    /\ derivative_value sympy ds vs "y" = Return dv
    /\ significant_imaginary sympy dv = Return true
    /\ error (calculate_symbolic_data sympy "I*(x+y)" ["x"; "y"] values)
       = Some ("Evaluation error: " +:+ imaginary_message "x")
    /\ error (calculate_symbolic_data sympy "I*(x+y)" ["x"; "y"] values)
       <> Some ("Evaluation error: " +:+ imaginary_message "y").
Proof.
  do 5 eexists.
  split; [vm_compute; reflexivity|].
  split; [vm_compute; reflexivity|].
  split; [vm_compute; reflexivity|].
  split; [vm_compute; reflexivity | vm_compute; discriminate].
Qed.

Lemma C4_witness :
  let sympy := Reference.sympy in
  let ds : gmap string string := {["x" := "I"]} in
  let vs : gmap string Q := {["x" := inject_Z 2]} in
  let ds' : gmap string string := {["x" := "2"]} in
  let vs' : gmap string Q := {["x" := inject_Z 3]} in
  (evaluate_expression sympy "I*(x-2)" ["x"] [inject_Z 2]
   = Return (Reference.Mul (I sympy)
               (Reference.Add (Symbol sympy "x") (Integer sympy (-2))),
             ds, vs, inject_Z 0)
   /\ py.for_in [] (numerical_derivative_step sympy ds vs) ∅ = Return ∅
   /\ derivative_value sympy ds vs "x" = Return (I sympy)
   /\ significant_imaginary sympy (I sympy) = Return true
   /\ calculate_symbolic_data sympy "I*(x-2)" ["x"] [inject_Z 2]
      = failure sympy "I*(x-2)"
          ("Evaluation error: " +:+ imaginary_message "x"))
  /\ (evaluate_expression sympy "2x" ["x"] [inject_Z 3]
      = Return (Reference.Mul (Integer sympy 2) (Symbol sympy "x"),
                ds', vs', inject_Z 6)
      /\ success (calculate_symbolic_data sympy "2x" ["x"] [inject_Z 3]) = true
      /\ exists dv rv x,
           derivative_value sympy ds' vs' "x" = Return dv
           /\ significant_imaginary sympy dv = Return false
           /\ re sympy dv = Return rv
           /\ float sympy rv = Return x
           /\ numerical_derivatives
                (calculate_symbolic_data sympy "2x" ["x"] [inject_Z 3]) !! "x"
              = Some x).
Proof.
  cbv zeta.
  assert (Hstage :
    evaluate_expression Reference.sympy "I*(x-2)" ["x"] [inject_Z 2]
    = Return (Reference.Mul (I Reference.sympy)
                (Reference.Add (Symbol Reference.sympy "x")
                   (Integer Reference.sympy (-2))),
              {["x" := "I"]}, {["x" := inject_Z 2]}, inject_Z 0))
    by (vm_compute; reflexivity).
  assert (Hdv :
    derivative_value Reference.sympy {["x" := "I"]} {["x" := inject_Z 2]} "x"
    = Return (I Reference.sympy)) by (vm_compute; reflexivity).
  assert (Hsig :
    significant_imaginary Reference.sympy (I Reference.sympy) = Return true)
    by (vm_compute; reflexivity).
  assert (Hstage' :
    evaluate_expression Reference.sympy "2x" ["x"] [inject_Z 3]
    = Return (Reference.Mul (Integer Reference.sympy 2)
                (Symbol Reference.sympy "x"),
              {["x" := "2"]}, {["x" := inject_Z 3]}, inject_Z 6))
    by (vm_compute; reflexivity).
  assert (Hok :
    success (calculate_symbolic_data Reference.sympy "2x" ["x"] [inject_Z 3])
    = true) by (vm_compute; reflexivity).
  split.
  - split; [exact Hstage|]. split; [reflexivity|].
    split; [exact Hdv|]. split; [exact Hsig|].
    exact (proj1 (C4_imaginary_derivative_check Reference.sympy
                    "I*(x-2)" ["x"] [inject_Z 2] _ _ _ _ Hstage)
             [] "x" [] ∅ _ eq_refl eq_refl Hdv Hsig).
  - split; [exact Hstage'|]. split; [exact Hok|].
    exact (proj2 (C4_imaginary_derivative_check Reference.sympy
                    "2x" ["x"] [inject_Z 3] _ _ _ _ Hstage')
             Hok "x" (list_elem_of_here _ _)).
Defined.

(** C5.  If the formula parses, its derivatives are taken, the
    substitution mapping is built and the substituted expression still
    has free symbols, then the call fails with ["Evaluation error:
    Expression could not be fully evaluated: missing variables?"].  In
    particular [calculate_symbolic_data("x+y", ["x"], [1.0])] fails this
    way: [y] is left free. *)
Theorem C5_missing_variables :
  (forall (sympy : SymPy) formula variables values expr ds vs ev,
     _preprocess_formula sympy formula variables (_get_math_functions sympy)
     = Return expr ->
     derivatives_loop sympy expr variables = Return ds ->
     value_subs_of sympy variables values = Return vs ->
     subs sympy expr vs = Return ev ->
     free_symbols sympy ev <> ∅ ->
     calculate_symbolic_data sympy formula variables values
     = failure sympy formula
         ("Evaluation error: " +:+ missing_variables_message))
  /\ calculate_symbolic_data Reference.sympy "x+y" ["x"] [inject_Z 1]
     = failure Reference.sympy "x+y"
         "Evaluation error: Expression could not be fully evaluated: missing variables?".
Proof.
  split; [intros sympy; apply free_symbols_left|].
  eapply (free_symbols_left Reference.sympy "x+y" ["x"] [inject_Z 1]);
    [vm_compute; reflexivity | vm_compute; reflexivity
    | vm_compute; reflexivity | vm_compute; reflexivity
    | vm_compute; discriminate].
Qed.

Lemma C5_witness :
  let sympy := Reference.sympy in
  exists expr ds vs ev,
    _preprocess_formula sympy "x+y" ["x"] (_get_math_functions sympy)
    = Return expr
    /\ derivatives_loop sympy expr ["x"] = Return ds
    /\ value_subs_of sympy ["x"] [inject_Z 1] = Return vs
    /\ subs sympy expr vs = Return ev
    /\ free_symbols sympy ev = {["y"]}
    /\ calculate_symbolic_data sympy "x+y" ["x"] [inject_Z 1]
       = failure sympy "x+y"
           ("Evaluation error: " +:+ missing_variables_message).
Proof.
  cbv zeta. do 4 eexists.
  split; [vm_compute; reflexivity|].
  split; [vm_compute; reflexivity|].
  split; [vm_compute; reflexivity|].
  split; [vm_compute; reflexivity|].
  split; [vm_compute; reflexivity|].
  eapply (proj1 C5_missing_variables Reference.sympy "x+y" ["x"] [inject_Z 1]);
    [vm_compute; reflexivity | vm_compute; reflexivity
    | vm_compute; reflexivity | vm_compute; reflexivity
    | vm_compute; discriminate].
Defined.

(** C6 (counterexample).  The formula ["I*x"] parses over the declared
    variable [x], but at [x = 1] its value is complex, the conversion to
    a float fails, and the call returns an empty ["derivatives"] dict,
    whose key set is not [{x}]. *)
Lemma C6_counterexample_failed_call :
  let sympy := Reference.sympy in
  let r := calculate_symbolic_data sympy "I*x" ["x"] [inject_Z 1] in
  (exists expr,
     _preprocess_formula sympy "I*x" ["x"] (_get_math_functions sympy)
     = Return expr)
  /\ error r = Some "Unexpected error: Cannot convert complex to float"
  /\ derivatives r = ∅
  /\ dom (derivatives r) <> (list_to_set ["x"] : gset string).
Proof.
  cbv zeta.
  split; [eexists; vm_compute; reflexivity|].
  split; [vm_compute; reflexivity|].
  split; [vm_compute; reflexivity | vm_compute; discriminate].
Qed.

Lemma C6_witness :
  let r := calculate_symbolic_data Reference.sympy "2x" ["x"] [inject_Z 3] in
  success r = true /\ dom (derivatives r) = (list_to_set ["x"] : gset string).
Proof.
  split; [vm_compute; reflexivity|].
  apply (C6_derivative_keys_on_success Reference.sympy "2x" ["x"] [inject_Z 3]).
  vm_compute. reflexivity.
Defined.

(** C7.  [generate_latex_data("x+y", ["x","y"])] succeeds.  Both partial
    derivatives of [x + y] are 1; each is multiplied by the symbol
    [σ_<variable>], squared, the squares are summed and the square root
    is taken: the ["string"] field is ["sqrt(σ_x**2 + σ_y**2)"] and the
    ["latex"] field is not empty. *)
Theorem C7_root_sum_of_squares :
  let sympy := Reference.sympy in
  let r := generate_latex_data sympy "x+y" ["x"; "y"] in
  (exists expr,
     _preprocess_formula sympy "x+y" ["x"; "y"] (_get_math_functions sympy)
     = Return expr
     /\ diff sympy expr (Symbol sympy "x") = Return (Integer sympy 1)
     /\ diff sympy expr (Symbol sympy "y") = Return (Integer sympy 1))
  /\ latex_success r = true
  /\ latex_string r = "sqrt(σ_x**2 + σ_y**2)"
  /\ latex_latex r = "\sqrt{σ_{x}^{2} + σ_{y}^{2}}"
  /\ latex_latex r <> "".
Proof.
  cbv zeta. split.
  - eexists. split; [vm_compute; reflexivity|].
    split; vm_compute; reflexivity.
  - split; [vm_compute; reflexivity|].
    split; [vm_compute; reflexivity|].
    split; [vm_compute; reflexivity | vm_compute; discriminate].
Qed.

(** C8.  [calculate_symbolic_data("2x", ["x"], [3.0])] succeeds with
    [numerical_value] 6.0: the adjacency ["2x"] parses to the same
    expression as the product ["2*x"]. *)
Theorem C8_implicit_multiplication :
  let sympy := Reference.sympy in
  let r := calculate_symbolic_data sympy "2x" ["x"] [inject_Z 3] in
  _preprocess_formula sympy "2x" ["x"] (_get_math_functions sympy)
  = _preprocess_formula sympy "2*x" ["x"] (_get_math_functions sympy)
  /\ success r = true
  /\ expression r = "2*x"
  /\ numerical_value r = inject_Z 6.
Proof.
  cbv zeta.
  split; [vm_compute; reflexivity|].
  split; [vm_compute; reflexivity|].
  split; vm_compute; reflexivity.
Qed.

(** C9.  ["sen"] and ["sin"] are bound to the same operator in the
    Function Library, so ["sen(x)"] and ["sin(x)"] parse to the same
    expression and, for every value [v] and whatever SymPy computes from
    that expression, the two calls return the same [numerical_value] and
    the same [numerical_derivatives] (and the same derivatives, success
    flag and error). *)
Theorem C9_sen_is_sin (sympy : SymPy) (v : pyfloat sympy) :
  let reference := with_reference_parser sympy in
  let r_sen := calculate_symbolic_data reference "sen(x)" ["x"] [v] in
  let r_sin := calculate_symbolic_data reference "sin(x)" ["x"] [v] in
  _get_math_functions reference !! "sen" = _get_math_functions reference !! "sin"
  /\ numerical_value r_sen = numerical_value r_sin
  /\ numerical_derivatives r_sen = numerical_derivatives r_sin
  /\ derivatives r_sen = derivatives r_sin
  /\ success r_sen = success r_sin
  /\ error r_sen = error r_sin.
Proof.
  cbv zeta. split; [reflexivity|].
  apply (same_parse_same_numbers (with_reference_parser sympy) "sen(x)" "sin(x)" ["x"] [v]).
  apply parse_sen_sin.
Qed.

(** C10 (counterexample).
    [calculate_symbolic_data("hermite(-1, x)", ["x"], [])] has fewer
    values than variables, but [hermite] refuses its negative index with
    a [ValueError] while the formula is parsed, before line 112 is
    reached: the message is an evaluation error, not an unexpected one. *)
Lemma C10_counterexample_parse_error :
  let sympy := Reference.sympy in
  let r := calculate_symbolic_data sympy "hermite(-1, x)" ["x"] [] in
  (length ([] : list Q) < length ["x"])%nat
  /\ success r = false
  /\ error r
     = Some "Evaluation error: The index n must be nonnegative integer (got -1)"
  /\ ~ (exists detail, error r = Some ("Unexpected error: " +:+ detail)).
Proof.
  cbv zeta.
  assert (Herror :
    error (calculate_symbolic_data Reference.sympy "hermite(-1, x)" ["x"] [])
    = Some "Evaluation error: The index n must be nonnegative integer (got -1)")
    by (vm_compute; reflexivity).
  split; [simpl; lia|]. split; [vm_compute; reflexivity|].
  split; [exact Herror|].
  rewrite Herror. intros [detail H]. discriminate H.
Qed.

Lemma C10_witness :
  let sympy := Reference.sympy in
  let r := calculate_symbolic_data sympy "x" ["x"] [] in
  (length ([] : list Q) < length ["x"])%nat
  /\ _preprocess_formula sympy "x" ["x"] (_get_math_functions sympy)
     = Return (Symbol sympy "x")
  /\ derivatives_loop sympy (Symbol sympy "x") ["x"] = Return {["x" := "1"]}
  /\ success r = false
  /\ error r = Some "Unexpected error: list index out of range".
Proof.
  cbv zeta.
  assert (Hshort : (length ([] : list Q) < length ["x"])%nat) by (simpl; lia).
  assert (Hparse :
    _preprocess_formula Reference.sympy "x" ["x"]
      (_get_math_functions Reference.sympy)
    = Return (Symbol Reference.sympy "x")) by (vm_compute; reflexivity).
  assert (Hds :
    derivatives_loop Reference.sympy (Symbol Reference.sympy "x") ["x"]
    = Return {["x" := "1"]}) by (vm_compute; reflexivity).
  destruct (C10_short_values_unexpected Reference.sympy "x" ["x"] [] Hshort)
    as (Hfail & Herror & _ & _).
  split; [exact Hshort|]. split; [exact Hparse|]. split; [exact Hds|].
  split; [exact Hfail|]. exact (Herror _ _ Hparse Hds).
Defined.

(** * Further properties of the program

    What the two entry points do beyond the claims above: the substitution
    mapping, the shape of successful and failed results, the sharing of
    the preprocessor, and the uncertainty formula for every input. *)

Section Further.

Context (sympy : SymPy).


Lemma value_subs_from (variables : list string)
    (values : list (pyfloat sympy)) n (d0 : gmap string (pyfloat sympy)) :
  n + length variables <= length values ->
  py.for_in (py.enumerate_from n variables)
    (fun d item =>
       let '(i, var) := item in
       py.bind (py.getitem values i) (fun v => Return (<[var := v]> d))) d0
  = Return (list_to_map (reverse (zip variables (drop n values))) ∪ d0).
Proof.
  revert n d0.
  induction variables as [|var variables IH]; intros n d0 Hlen; simpl in *.
  - by rewrite (left_id ∅ _).
  - destruct (lookup_lt_is_Some_2 values n) as [x Hx]; [lia|].
    unfold py.getitem at 1. rewrite Hx. simpl.
    rewrite IH by lia. f_equal.
    rewrite (drop_S _ _ _ Hx). simpl.
    rewrite reverse_cons, list_to_map_app. simpl.
    rewrite insert_empty, <- (assoc_L _), <- insert_union_singleton_l.
    reflexivity.
Qed.

Lemma value_subs_of_eq (variables : list string)
    (values : list (pyfloat sympy)) :
  value_subs_of sympy variables values
  = if decide (length variables <= length values)
    then Return (list_to_map (reverse (zip variables values)))
    else py.raise py.IndexError "list index out of range".
Proof.
  unfold value_subs_of, py.enumerate. case_decide as Hlen.
  - rewrite value_subs_from by (simpl; lia).
    by rewrite drop_0, (right_id ∅ _).
  - apply value_subs_short; lia.
Qed.

(** X1.  The substitution mapping of line 112 in closed form: with at
    least as many values as variables it pairs them by position, a later
    pair overriding an earlier one with the same name; with fewer values
    it raises [IndexError]. *)
Theorem X1_value_subs_closed_form (variables : list string)
    (values : list (pyfloat sympy)) :
  value_subs_of sympy variables values
  = if decide (length variables <= length values)
    then Return (list_to_map (reverse (zip variables values)))
    else py.raise py.IndexError "list index out of range".
Proof. apply value_subs_of_eq. Qed.

(** X2.  A variable listed more than once gets the value at the position
    of its last occurrence: the dict comprehension of line 112 overwrites
    earlier bindings. *)
Theorem X2_last_value_wins (variables : list string)
    (values : list (pyfloat sympy)) before var after x vs :
  variables = before ++ var :: after ->
  var ∉ after ->
  values !! length before = Some x ->
  value_subs_of sympy variables values = Return vs ->
  vs !! var = Some x.
Proof.
  intros -> Hafter Hx. rewrite value_subs_of_eq.
  case_decide as Hlen; [|discriminate]. intros [= <-].
  rewrite length_app in Hlen. simpl in Hlen.
  assert (Hsplit : values = take (length before) values
                             ++ x :: drop (S (length before)) values).
  { rewrite <- (drop_S _ _ _ Hx). symmetry. apply take_drop. }
  rewrite Hsplit.
  rewrite zip_with_app by (rewrite length_take; lia). simpl.
  rewrite reverse_app, reverse_cons, list_to_map_app.
  apply lookup_union_Some_l.
  apply elem_of_list_to_map_1'; [|].
  - intros y Hy. apply elem_of_app in Hy as [Hy|Hy].
    + rewrite elem_of_reverse in Hy.
      apply elem_of_zip_l in Hy. contradiction.
    + apply list_elem_of_singleton in Hy. by injection Hy.
  - apply elem_of_app. right. apply list_elem_of_here.
Qed.

Lemma try_depends_on_values formula variables values values' :
  value_subs_of sympy variables values = value_subs_of sympy variables values' ->
  calculate_symbolic_data sympy formula variables values
  = calculate_symbolic_data sympy formula variables values'.
Proof.
  intros H.
  unfold calculate_symbolic_data, calculate_symbolic_data_try, evaluate_expression.
  rewrite H. reflexivity.
Qed.

(** X3.  Values beyond the number of variables are never read: the call
    returns the same result as with [values] cut to the length of
    [variables] (with no variables, [values] is ignored altogether). *)
Theorem X3_extra_values_ignored formula (variables : list string)
    (values : list (pyfloat sympy)) :
  calculate_symbolic_data sympy formula variables values
  = calculate_symbolic_data sympy formula variables
      (take (length variables) values).
Proof.
  apply try_depends_on_values. rewrite !value_subs_of_eq.
  rewrite zip_with_take_r, length_take.
  repeat case_decide; try reflexivity; lia.
Qed.



Lemma derivatives_loop_content expr (variables : list string)
    (d0 d : gmap string string) :
  py.for_in variables
    (fun derivatives var =>
       py.bind (diff sympy expr (Symbol sympy var))
         (fun deriv => Return (<[var := str sympy deriv]> derivatives))) d0
  = Return d ->
  (forall var, var ∈ variables ->
     exists deriv,
       diff sympy expr (Symbol sympy var) = Return deriv
       /\ d !! var = Some (str sympy deriv))
  /\ (forall var, var ∉ variables -> d !! var = d0 !! var).
Proof.
  revert d0. induction variables as [|v variables IH]; intros d0; simpl.
  - intros [= <-]. split; [intros var Hin; inversion Hin | reflexivity].
  - intros H. apply bind_Return in H as (d1 & Hstep & Hrest).
    apply bind_Return in Hstep as (deriv & Hdiff & [= <-]).
    apply IH in Hrest as [Hin Hout]. split.
    + intros var Hvar.
      destruct (decide (var ∈ variables)) as [Hmem|Hmem]; [auto|].
      apply elem_of_cons in Hvar as [->|Hvar]; [|contradiction].
      exists deriv. rewrite (Hout _ Hmem), lookup_insert_eq. auto.
    + intros var Hvar. apply not_elem_of_cons in Hvar as [Hne Hvar].
      rewrite (Hout _ Hvar). by rewrite lookup_insert_ne.
Qed.

(** X4.  On a successful call ["expression"] is the string of the parsed
    expression (not the input text), and for every declared variable
    ["derivatives"] holds the string of [sp.diff(expr, Symbol(var))]. *)
Theorem X4_successful_result formula variables values :
  let r := calculate_symbolic_data sympy formula variables values in
  success r = true ->
  exists expr,
    _preprocess_formula sympy formula variables (_get_math_functions sympy)
    = Return expr
    /\ expression r = str sympy expr
    /\ forall var, var ∈ variables ->
         exists deriv,
           diff sympy expr (Symbol sympy var) = Return deriv
           /\ derivatives r !! var = Some (str sympy deriv).
Proof.
  intros r Hok. subst r. apply successful_call in Hok.
  pose proof Hok as Htry. unfold calculate_symbolic_data_try in Htry.
  apply bind_Return in Htry as ([[[expr ds] vs] nv] & Hstage & Htry).
  apply bind_Return in Htry as (nd & Hloop & Htry).
  set (r := calculate_symbolic_data sympy formula variables values) in *.
  injection Htry as Hr.
  apply evaluate_expression_Return in Hstage as (Hparse & Hds & _).
  exists expr. split; [exact Hparse|]. rewrite <- Hr. simpl.
  split; [reflexivity|].
  apply derivatives_loop_content in Hds as [Hin _]. exact Hin.
Qed.

(** X5.  On a successful call ["numerical_derivatives"] has one key per
    declared variable, the same key set as ["derivatives"]. *)
Theorem X5_numerical_keys_on_success formula variables values :
  let r := calculate_symbolic_data sympy formula variables values in
  success r = true ->
  dom (numerical_derivatives r) = (list_to_set variables : gset string)
  /\ dom (numerical_derivatives r) = dom (derivatives r).
Proof.
  intros r Hok. subst r. pose proof Hok as Hok'.
  apply successful_call, try_success in Hok
    as (expr & nv & vs & Hstage & Hloop & _).
  apply numerical_loop in Hloop as [Hin Hout].
  assert (Hnum : dom (numerical_derivatives
                        (calculate_symbolic_data sympy formula variables values))
                 = (list_to_set variables : gset string)).
  { apply set_eq. intros k. rewrite elem_of_dom, elem_of_list_to_set. split.
    - intros [x Hx]. destruct (decide (k ∈ variables)) as [|Hk]; [done|].
      rewrite (Hout _ Hk), lookup_empty in Hx. discriminate.
    - intros Hk. destruct (Hin _ Hk) as (dv & rv & x & _ & _ & _ & _ & Hx).
      eauto. }
  split; [exact Hnum|]. rewrite Hnum.
  apply evaluate_expression_Return in Hstage as (_ & Hds & _).
  apply derivatives_loop_dom in Hds. rewrite Hds. set_solver.
Qed.

(** X6.  The ["error"] key of [calculate_symbolic_data] is present exactly
    when [success] is false. *)
Theorem X6_error_iff_failure formula variables values :
  let r := calculate_symbolic_data sympy formula variables values in
  (success r = true <-> error r = None)
  /\ (success r = false <-> exists message, error r = Some message).
Proof.
  intros r. subst r. unfold calculate_symbolic_data.
  destruct (calculate_symbolic_data_try sympy formula variables values)
    as [r|e] eqn:Htry.
  - unfold calculate_symbolic_data_try in Htry.
    apply bind_Return in Htry as ([[[expr ds] vs] nv] & _ & Htry).
    apply bind_Return in Htry as (nd & _ & [= <-]). simpl.
    split; split; try done. intros [m Hm]. discriminate.
  - destruct (except_is_failure sympy formula e) as [m ->]. simpl.
    split; split; try done. eauto.
Qed.

(** X7.  The three handlers are told apart by the message.  A failed call
    was ended by one exception of the [try] block, and its message starts
    with ["Invalid formula syntax: "] exactly for a [SympifyError], with
    ["Evaluation error: "] exactly for a [ValueError] that is no
    [SympifyError], and with ["Unexpected error: "] exactly for any other
    exception: the first clause takes the [SympifyError]s although they
    are [ValueError]s too. *)
Theorem X7_category_from_message formula variables values :
  let r := calculate_symbolic_data sympy formula variables values in
  success r = false ->
  exists e,
    calculate_symbolic_data_try sympy formula variables values = Raise e
    /\ ((exists detail,
           error r = Some ("Invalid formula syntax: " +:+ detail))
        <-> py.isinstance e py.SympifyError = true)
    /\ ((exists detail, error r = Some ("Evaluation error: " +:+ detail))
        <-> py.isinstance e py.ValueError = true
            /\ py.isinstance e py.SympifyError = false)
    /\ ((exists detail, error r = Some ("Unexpected error: " +:+ detail))
        <-> py.isinstance e py.ValueError = false).
Proof.
  intros r Hfail. subst r.
  apply failed_call in Hfail as (e & Htry & ->).
  exists e. split; [exact Htry|].
  unfold calculate_symbolic_data_except.
  destruct (py.isinstance e py.SympifyError) eqn:Hs;
    [rewrite (SympifyError_is_ValueError e Hs)
    |destruct (py.isinstance e py.ValueError)];
    simpl; repeat split;
    try done; try (by eauto);
    try (by intros [detail [=]]); try (by intros [[=] _]);
    try (by intros [_ [=]]);
    try (by match goal with H : exists _, _ |- _ => destruct H as [? [=]] end).
Qed.



Lemma symbols_of_lookup (variables : list string) name :
  symbols_of sympy variables !! name
  = if bool_decide (name ∈ variables)
    then Some (Obj (Symbol sympy name)) else None.
Proof.
  unfold symbols_of. case_bool_decide as Hin.
  - apply elem_of_list_to_map_1'.
    + intros y Hy. apply list_elem_of_fmap in Hy as (v & [= <- ->] & _).
      reflexivity.
    + apply list_elem_of_fmap. eauto.
  - apply not_elem_of_list_to_map_1. rewrite <- list_fmap_compose.
    intros Hy. apply list_elem_of_fmap in Hy as (v & -> & Hv). apply Hin, Hv.
Qed.

(** X8.  Parsing depends on the declared variables only as a set: two
    lists with the same members, in any order and with any repetition,
    give the same namespace and the same parse. *)
Theorem X8_variables_as_a_set (variables variables' : list string)
    (math_functions : gmap string (pyobj sympy)) formula :
  (forall name, name ∈ variables <-> name ∈ variables') ->
  combined_locals sympy variables math_functions
  = combined_locals sympy variables' math_functions
  /\ _preprocess_formula sympy formula variables math_functions
     = _preprocess_formula sympy formula variables' math_functions.
Proof.
  intros Hsame.
  assert (Hsymbols : symbols_of sympy variables = symbols_of sympy variables').
  { apply map_eq. intros name. rewrite !symbols_of_lookup.
    by rewrite (bool_decide_ext _ _ (Hsame name)). }
  unfold _preprocess_formula, combined_locals. by rewrite Hsymbols.
Qed.

(** X9.  Every entry written in the dict literal of
    [_get_math_functions] is what a lookup of its name returns: no entry
    is overridden by a later one with the same key. *)
Theorem X9_table_entries_retrievable name (entry : pyobj sympy) :
  (name, entry) ∈ math_function_items sympy ->
  _get_math_functions sympy !! name = Some entry.
Proof.
  intros Hin. apply elem_of_list_to_map_1; [|exact Hin].
  apply math_function_names_NoDup.
Qed.

Lemma latex_try_Return formula variables r :
  generate_latex_data_try sympy formula variables = Return r ->
  latex_success r = true /\ latex_error r = None.
Proof.
  unfold generate_latex_data_try. intros H.
  apply bind_Return in H as (expr & _ & H).
  apply bind_Return in H as ([ds ts] & _ & H).
  apply bind_Return in H as (total & _ & H).
  apply bind_Return in H as (root & _ & H).
  apply bind_Return in H as (l & _ & [= <-]). auto.
Qed.

(** X10.  [generate_latex_data] reports ["error"] exactly when [success]
    is false, and then ["string"] and ["latex"] are empty and the message
    is [str(e)] of the exception, without a category prefix. *)
Theorem X10_latex_failure_fields formula variables :
  let r := generate_latex_data sympy formula variables in
  (latex_success r = true <-> latex_error r = None)
  /\ (latex_success r = false ->
      latex_string r = "" /\ latex_latex r = ""
      /\ exists e,
           generate_latex_data_try sympy formula variables = Raise e
           /\ latex_error r = Some (py.str_of e)).
Proof.
  intros r. subst r. unfold generate_latex_data.
  destruct (generate_latex_data_try sympy formula variables) as [r|e] eqn:Htry.
  - apply latex_try_Return in Htry as [-> ->]. split; [done|discriminate].
  - simpl. split; [split; discriminate|]. eauto.
Qed.

(** X11.  The two entry points share the preprocessor: when the formula
    does not parse, both fail on the same exception;
    [generate_latex_data] reports its message as it is and
    [calculate_symbolic_data] reports it behind one of its three
    prefixes. *)
Theorem X11_parse_failure_in_both formula variables values e :
  _preprocess_formula sympy formula variables (_get_math_functions sympy)
  = Raise e ->
  let r := calculate_symbolic_data sympy formula variables values in
  let l := generate_latex_data sympy formula variables in
  success r = false /\ latex_success l = false
  /\ latex_error l = Some (py.str_of e)
  /\ exists category,
       category ∈ ["Invalid formula syntax: "; "Evaluation error: ";
                   "Unexpected error: "]
       /\ error r = Some (category +:+ py.str_of e).
Proof.
  intros Hparse r l. subst r l.
  rewrite (parse_failure sympy _ _ _ _ Hparse).
  unfold generate_latex_data, generate_latex_data_try. rewrite Hparse. simpl.
  unfold calculate_symbolic_data_except.
  destruct (py.isinstance e py.SympifyError);
    [|destruct (py.isinstance e py.ValueError)];
    simpl; repeat split; eexists; (split; [|reflexivity]); set_solver.
Qed.

Lemma uncertainty_loop expr (variables : list string) ds0 ts0 ds ts :
  py.for_in variables (uncertainty_step sympy expr) (ds0, ts0) = Return (ds, ts) ->
  exists terms,
    ts = ts0 ++ terms
    /\ Forall2
         (fun var term =>
            exists deriv product,
              diff sympy expr (Symbol sympy var) = Return deriv
              /\ mul sympy deriv (Symbol sympy ("σ_" +:+ var)) = Return product
              /\ pow sympy product (Integer sympy 2) = Return term)
         variables terms.
Proof.
  revert ds0 ts0. induction variables as [|var variables IH]; intros ds0 ts0; simpl.
  - intros [= <- <-]. exists []. split; [by rewrite app_nil_r|constructor].
  - intros H. apply bind_Return in H as ([ds1 ts1] & Hstep & Hrest).
    unfold uncertainty_step in Hstep.
    apply bind_Return in Hstep as (deriv & Hdiff & Hstep).
    apply bind_Return in Hstep as (product & Hmul & Hstep).
    apply bind_Return in Hstep as (term & Hpow & [= <- <-]).
    apply IH in Hrest as (terms & -> & Hall).
    exists (term :: terms). split; [by rewrite <- app_assoc|].
    constructor; [eauto|exact Hall].
Qed.

(** X12.  Whenever [generate_latex_data] succeeds, its output renders
    [sqrt(0 + t_1 + ... + t_n)] with one term per entry of [variables],
    in order, [t_i = (diff(expr, x_i) * σ_{x_i}) ** 2]; ["string"] and
    ["latex"] are the two renderings of that one expression, the latter
    with [mul_symbol="dot"]. *)
Theorem X12_root_sum_of_squares formula variables :
  let r := generate_latex_data sympy formula variables in
  latex_success r = true ->
  exists expr terms total root,
    _preprocess_formula sympy formula variables (_get_math_functions sympy)
    = Return expr
    /\ Forall2
         (fun var term =>
            exists deriv product,
              diff sympy expr (Symbol sympy var) = Return deriv
              /\ mul sympy deriv (Symbol sympy ("σ_" +:+ var)) = Return product
              /\ pow sympy product (Integer sympy 2) = Return term)
         variables terms
    /\ py_sum sympy terms = Return total
    /\ call sympy sp.sqrt [total] = Return root
    /\ latex_string r = str sympy root
    /\ latex sympy root "dot" = Return (latex_latex r).
Proof.
  intros r Hok. subst r. unfold generate_latex_data in *.
  destruct (generate_latex_data_try sympy formula variables) as [r|e] eqn:Htry;
    [|discriminate].
  unfold generate_latex_data_try in Htry.
  apply bind_Return in Htry as (expr & Hparse & H).
  apply bind_Return in H as ([ds ts] & Hloop & H).
  apply bind_Return in H as (total & Hsum & H).
  apply bind_Return in H as (root & Hroot & H).
  apply bind_Return in H as (l & Hlatex & [= <-]). simpl.
  apply uncertainty_loop in Hloop as (terms & -> & Hall).
  exists expr, terms, total, root. auto 10.
Qed.

(** X13.  With an empty variable list the uncertainty formula does not
    depend on the formula: any two formulas that parse give the same
    result, and that result renders [sqrt(0)], the square root of the
    empty sum: on success ["string"] and ["latex"] are the two renderings
    of [sp.sqrt(0)], and a failure is an exception of [sp.sqrt(0)] or of
    its typesetting. *)
Theorem X13_no_variables_same_rendering formula formula' expr expr' :
  _preprocess_formula sympy formula [] (_get_math_functions sympy)
  = Return expr ->
  _preprocess_formula sympy formula' [] (_get_math_functions sympy)
  = Return expr' ->
  let r := generate_latex_data sympy formula [] in
  r = generate_latex_data sympy formula' []
  /\ (latex_success r = true ->
      exists root,
        call sympy sp.sqrt [Integer sympy 0] = Return root
        /\ latex_string r = str sympy root
        /\ latex sympy root "dot" = Return (latex_latex r))
  /\ (latex_success r = false ->
      exists e,
        (call sympy sp.sqrt [Integer sympy 0] = Raise e
         \/ exists root,
              call sympy sp.sqrt [Integer sympy 0] = Return root
              /\ latex sympy root "dot" = Raise e)
        /\ latex_string r = "" /\ latex_latex r = ""
        /\ latex_error r = Some (py.str_of e)).
Proof.
  intros H H' r. subst r.
  unfold generate_latex_data, generate_latex_data_try.
  rewrite H, H'. simpl.
  split; [reflexivity|].
  destruct (call sympy sp.sqrt [Integer sympy 0]) as [root|e]; simpl.
  - destruct (latex sympy root "dot") as [l|e] eqn:Hlatex; simpl.
    + split; [eauto|discriminate].
    + split; [discriminate|]. intros _. exists e. eauto 10.
  - split; [discriminate|]. intros _. exists e. eauto 10.
Qed.

End Further.


(** X14.  The convenience entries of the table agree with their long
    forms: [log10(x)] is [log(x, 10)], [log2(x)] is [log(x, 2)],
    [cbrt(x)] is [root(x, 3)], [e] is [E] and [j] is [I].  For every
    value and whatever SymPy computes, the two spellings return the same
    numbers, derivatives, success flag and error. *)
Theorem X14_aliases_agree (sympy : SymPy) (v : pyfloat sympy) :
  let reference := with_reference_parser sympy in
  Forall
    (fun pair : string * string =>
       let r := calculate_symbolic_data reference pair.1 ["x"] [v] in
       let r' := calculate_symbolic_data reference pair.2 ["x"] [v] in
       numerical_value r = numerical_value r'
       /\ numerical_derivatives r = numerical_derivatives r'
       /\ derivatives r = derivatives r'
       /\ success r = success r'
       /\ error r = error r')
    [ ("log10(x)", "log(x, 10)"); ("log2(x)", "log(x, 2)");
      ("cbrt(x)", "root(x, 3)");
      ("e*x", "E*x"); ("j*x", "I*x") ].
Proof.
  cbv zeta. repeat constructor;
    apply (same_parse_same_numbers (with_reference_parser sympy));
    vm_compute; reflexivity.
Qed.

(** ** The further properties at concrete inputs *)

Lemma X2_witness :
  let variables := ["x"; "y"; "x"] in
  let values := [inject_Z 1; inject_Z 2; inject_Z 3] in
  let vs : gmap string Q := {["x" := inject_Z 3; "y" := inject_Z 2]} in
  variables = ["x"; "y"] ++ "x" :: []
  /\ ("x" ∉ ([] : list string))
  /\ values !! length ["x"; "y"] = Some (inject_Z 3)
  /\ value_subs_of Reference.sympy variables values = Return vs
  /\ vs !! "x" = Some (inject_Z 3).
Proof.
  cbv zeta.
  assert (Hvs :
    value_subs_of Reference.sympy ["x"; "y"; "x"]
      [inject_Z 1; inject_Z 2; inject_Z 3]
    = Return {["x" := inject_Z 3; "y" := inject_Z 2]})
    by (vm_compute; reflexivity).
  assert (Hafter : "x" ∉ ([] : list string)) by apply not_elem_of_nil.
  split; [reflexivity|]. split; [exact Hafter|]. split; [reflexivity|].
  split; [exact Hvs|].
  exact (X2_last_value_wins Reference.sympy ["x"; "y"; "x"]
           [inject_Z 1; inject_Z 2; inject_Z 3] ["x"; "y"] "x" []
           (inject_Z 3) _ eq_refl Hafter eq_refl Hvs).
Defined.

Lemma X4_witness :
  let r := calculate_symbolic_data Reference.sympy "2x" ["x"] [inject_Z 3] in
  success r = true
  /\ exists expr,
       _preprocess_formula Reference.sympy "2x" ["x"]
         (_get_math_functions Reference.sympy)
       = Return expr
       /\ expression r = str Reference.sympy expr
       /\ forall var, var ∈ ["x"] ->
            exists deriv,
              diff Reference.sympy expr (Symbol Reference.sympy var)
              = Return deriv
              /\ derivatives r !! var = Some (str Reference.sympy deriv).
Proof.
  cbv zeta.
  assert (Hok :
    success (calculate_symbolic_data Reference.sympy "2x" ["x"] [inject_Z 3])
    = true) by (vm_compute; reflexivity).
  split; [exact Hok|].
  exact (X4_successful_result Reference.sympy "2x" ["x"] [inject_Z 3] Hok).
Defined.

Lemma X5_witness :
  let r := calculate_symbolic_data Reference.sympy "x y" ["x"; "y"; "x"]
             [inject_Z 1; inject_Z 2; inject_Z 3] in
  success r = true
  /\ dom (numerical_derivatives r)
     = (list_to_set ["x"; "y"; "x"] : gset string)
  /\ dom (numerical_derivatives r) = dom (derivatives r).
Proof.
  cbv zeta.
  assert (Hok :
    success (calculate_symbolic_data Reference.sympy "x y" ["x"; "y"; "x"]
               [inject_Z 1; inject_Z 2; inject_Z 3])
    = true) by (vm_compute; reflexivity).
  split; [exact Hok|].
  exact (X5_numerical_keys_on_success Reference.sympy "x y" ["x"; "y"; "x"]
           [inject_Z 1; inject_Z 2; inject_Z 3] Hok).
Defined.

Lemma X6_witness :
  let r := calculate_symbolic_data Reference.sympy "x+y" ["x"] [inject_Z 1] in
  success r = false /\ exists message, error r = Some message.
Proof.
  cbv zeta.
  assert (Hfail :
    success (calculate_symbolic_data Reference.sympy "x+y" ["x"] [inject_Z 1])
    = false) by (vm_compute; reflexivity).
  split; [exact Hfail|].
  exact (proj1 (proj2 (X6_error_iff_failure Reference.sympy "x+y" ["x"]
                         [inject_Z 1])) Hfail).
Defined.

Lemma X7_witness :
  let r := calculate_symbolic_data Reference.sympy "x+y" ["x"] [inject_Z 1] in
  success r = false
  /\ exists e,
       calculate_symbolic_data_try Reference.sympy "x+y" ["x"] [inject_Z 1]
       = Raise e
       /\ ((exists detail,
              error r = Some ("Invalid formula syntax: " +:+ detail))
           <-> py.isinstance e py.SympifyError = true)
       /\ ((exists detail, error r = Some ("Evaluation error: " +:+ detail))
           <-> py.isinstance e py.ValueError = true
               /\ py.isinstance e py.SympifyError = false)
       /\ ((exists detail, error r = Some ("Unexpected error: " +:+ detail))
           <-> py.isinstance e py.ValueError = false).
Proof.
  cbv zeta.
  assert (Hfail :
    success (calculate_symbolic_data Reference.sympy "x+y" ["x"] [inject_Z 1])
    = false) by (vm_compute; reflexivity).
  split; [exact Hfail|].
  exact (X7_category_from_message Reference.sympy "x+y" ["x"] [inject_Z 1]
           Hfail).
Defined.

Lemma X8_witness :
  let sympy := Reference.sympy in
  (forall name, name ∈ ["x"; "y"] <-> name ∈ ["y"; "x"; "x"])
  /\ combined_locals sympy ["x"; "y"] (_get_math_functions sympy)
     = combined_locals sympy ["y"; "x"; "x"] (_get_math_functions sympy)
  /\ _preprocess_formula sympy "x y" ["x"; "y"] (_get_math_functions sympy)
     = _preprocess_formula sympy "x y" ["y"; "x"; "x"]
         (_get_math_functions sympy).
Proof.
  cbv zeta.
  assert (Hsame : forall name : string,
            name ∈ ["x"; "y"] <-> name ∈ ["y"; "x"; "x"])
    by (intros name; rewrite !elem_of_cons, !elem_of_nil; tauto).
  split; [exact Hsame|].
  exact (X8_variables_as_a_set Reference.sympy ["x"; "y"] ["y"; "x"; "x"]
           (_get_math_functions Reference.sympy) "x y" Hsame).
Defined.

Lemma X9_witness :
  let sympy := Reference.sympy in
  ("sen", fn sympy sp.sin) ∈ math_function_items sympy
  /\ _get_math_functions sympy !! "sen" = Some (fn sympy sp.sin).
Proof.
  cbv zeta.
  assert (Hin : ("sen", fn Reference.sympy sp.sin)
                ∈ math_function_items Reference.sympy)
    by (apply list_elem_of_further, list_elem_of_here).
  split; [exact Hin|].
  exact (X9_table_entries_retrievable Reference.sympy "sen" _ Hin).
Defined.

Lemma X10_witness :
  let r := generate_latex_data Reference.sympy "(x" ["x"] in
  latex_success r = false
  /\ latex_string r = "" /\ latex_latex r = ""
  /\ exists e,
       generate_latex_data_try Reference.sympy "(x" ["x"] = Raise e
       /\ latex_error r = Some (py.str_of e).
Proof.
  cbv zeta.
  assert (Hfail :
    latex_success (generate_latex_data Reference.sympy "(x" ["x"]) = false)
    by (vm_compute; reflexivity).
  split; [exact Hfail|].
  exact (proj2 (X10_latex_failure_fields Reference.sympy "(x" ["x"]) Hfail).
Defined.

Lemma X11_witness :
  let sympy := Reference.sympy in
  let e := py.Exn py.TokenError "('EOF in multi-line statement', (2, 0))" in
  let r := calculate_symbolic_data sympy "(x" ["x"] [inject_Z 1] in
  let l := generate_latex_data sympy "(x" ["x"] in
  _preprocess_formula sympy "(x" ["x"] (_get_math_functions sympy) = Raise e
  /\ success r = false /\ latex_success l = false
  /\ latex_error l = Some (py.str_of e)
  /\ exists category,
       category ∈ ["Invalid formula syntax: "; "Evaluation error: ";
                   "Unexpected error: "]
       /\ error r = Some (category +:+ py.str_of e).
Proof.
  cbv zeta.
  assert (Hparse :
    _preprocess_formula Reference.sympy "(x" ["x"]
      (_get_math_functions Reference.sympy)
    = Raise (py.Exn py.TokenError "('EOF in multi-line statement', (2, 0))"))
    by (vm_compute; reflexivity).
  split; [exact Hparse|].
  exact (X11_parse_failure_in_both Reference.sympy "(x" ["x"] [inject_Z 1] _
           Hparse).
Defined.

Lemma X12_witness :
  let sympy := Reference.sympy in
  let r := generate_latex_data sympy "x*y" ["x"; "y"] in
  latex_success r = true
  /\ exists expr terms total root,
       _preprocess_formula sympy "x*y" ["x"; "y"] (_get_math_functions sympy)
       = Return expr
       /\ Forall2
            (fun var term =>
               exists deriv product,
                 diff sympy expr (Symbol sympy var) = Return deriv
                 /\ mul sympy deriv (Symbol sympy ("σ_" +:+ var))
                    = Return product
                 /\ pow sympy product (Integer sympy 2) = Return term)
            ["x"; "y"] terms
       /\ py_sum sympy terms = Return total
       /\ call sympy sp.sqrt [total] = Return root
       /\ latex_string r = str sympy root
       /\ latex sympy root "dot" = Return (latex_latex r).
Proof.
  cbv zeta.
  assert (Hok :
    latex_success (generate_latex_data Reference.sympy "x*y" ["x"; "y"])
    = true) by (vm_compute; reflexivity).
  split; [exact Hok|].
  exact (X12_root_sum_of_squares Reference.sympy "x*y" ["x"; "y"] Hok).
Defined.

Lemma X13_witness :
  let sympy := Reference.sympy in
  let r := generate_latex_data sympy "x" [] in
  _preprocess_formula sympy "x" [] (_get_math_functions sympy)
  = Return (Symbol sympy "x")
  /\ _preprocess_formula sympy "2+1" [] (_get_math_functions sympy)
     = Return (Integer sympy 3)
  /\ r = generate_latex_data sympy "2+1" []
  /\ latex_success r = true
  /\ (exists root,
        call sympy sp.sqrt [Integer sympy 0] = Return root
        /\ latex_string r = str sympy root
        /\ latex sympy root "dot" = Return (latex_latex r))
  /\ latex_string r = "0".
Proof.
  cbv zeta.
  assert (H :
    _preprocess_formula Reference.sympy "x" []
      (_get_math_functions Reference.sympy)
    = Return (Symbol Reference.sympy "x")) by (vm_compute; reflexivity).
  assert (H' :
    _preprocess_formula Reference.sympy "2+1" []
      (_get_math_functions Reference.sympy)
    = Return (Integer Reference.sympy 3)) by (vm_compute; reflexivity).
  assert (Hok :
    latex_success (generate_latex_data Reference.sympy "x" []) = true)
    by (vm_compute; reflexivity).
  destruct (X13_no_variables_same_rendering Reference.sympy "x" "2+1" _ _ H H')
    as (Hsame & Hrender & _).
  split; [exact H|]. split; [exact H'|]. split; [exact Hsame|].
  split; [exact Hok|]. split; [exact (Hrender Hok)|].
  vm_compute; reflexivity.
Defined.
